(** * LogSentry: the log parsing engine and the collector's control flow

    A shallow embedding of [script/log_parse.py] and of the control flow of
    [script/log_download.py], with the properties of the specification
    stated and settled against it.

    Conventions.
    - A Python [str] is a [string]; its characters are read as code points
      below 256.  Every separator the scripts use is ASCII.
    - A Python exception is a value of [exn]; code that may raise returns a
      [result].
    - Python's unbounded [int] is [Z].
    - The local file system is a finite map from path to file.
    - Two things the scripts rely on are left open, as parameters the
      properties hold for whatever they are: what pandas does with a date
      string that is not in the plain form of the format
      ([Pandas.Library]), and which paths can be opened for writing
      ([Writable]). *)

From Stdlib Require Import ZArith Lia Ascii String List Bool.
From stdpp Require Import base option list strings gmap.

Local Open Scope string_scope.
Local Open Scope list_scope.
Local Open Scope Z_scope.

(** ** Exceptions and results *)

Inductive exn : Type :=
  | IndexError
  | FileNotFoundError
  | PermissionError
  | UnboundLocalError
  | ValueError
  | BadGzipFile
  | OSError
  | OtherError (what : string).

Inductive result (A : Type) : Type :=
  | OK (a : A)
  | Raise (e : exn).
Arguments OK {A} a.
Arguments Raise {A} e.

Definition rbind {A B : Type} (m : result A) (k : A -> result B) : result B :=
  match m with
  | OK a => k a
  | Raise e => Raise e
  end.

#[global] Instance result_ret : MRet result := fun A a => OK a.
#[global] Instance result_bind : MBind result := fun A B k m => rbind m k.

Definition is_OK {A : Type} (m : result A) : bool :=
  match m with OK _ => true | Raise _ => false end.

(** [for x in xs: st = body(x, st)], leaving the loop at the first
    exception. *)
Fixpoint for_each {A S : Type} (body : A -> S -> result S)
    (xs : list A) (st : S) : result S :=
  match xs with
  | [] => OK st
  | x :: xs' => st' ← body x st; for_each body xs' st'
  end.

(** ** Python's sequence and string operations *)

Module Py.

(** [l[i]] for a non-negative literal index. *)
Definition index {A : Type} (l : list A) (i : nat) : result A :=
  match l !! i with
  | Some x => OK x
  | None => Raise IndexError
  end.

(** [l[start:stop]]; a negative bound counts from the end, and bounds are
    clipped to the list. *)
Definition norm_bound {A : Type} (l : list A) (i : Z) : nat :=
  let n := Z.of_nat (length l) in
  Z.to_nat (Z.min (Z.max (if i <? 0 then i + n else i) 0) n).

Definition slice {A : Type} (l : list A) (start stop : Z) : list A :=
  let a := norm_bound l start in
  let b := norm_bound l stop in
  take (b - a)%nat (drop a l).

(** [l[start:]] *)
Definition slice_from {A : Type} (l : list A) (start : Z) : list A :=
  drop (norm_bound l start) l.

(** [sep.join(l)] *)
Definition join (sep : string) (l : list string) : string :=
  String.concat sep l.

(** [x in l] on a list of strings. *)
Definition mem (x : string) (l : list string) : bool :=
  bool_decide (x ∈ l).

(** [s.startswith(p)] and [s.endswith(p)] *)
Definition startswith (p s : string) : bool := String.prefix p s.
Definition endswith (p s : string) : bool :=
  String.prefix (String.rev p) (String.rev s).

Definition cons_head (c : ascii) (l : list string) : list string :=
  match l with
  | hd :: tl => String c hd :: tl
  | [] => [String c ""]
  end.

(** [s.split(sep, maxsplit)] for a non-empty separator: the pieces between
    the leftmost non-overlapping occurrences of [sep], empty pieces kept.
    [maxsplit = None] is Python's default (no limit).  [skip] counts the
    characters of a separator that has just been matched and is still to be
    passed over. *)
Fixpoint split_go (sep : string) (maxsplit : option nat) (skip : nat)
    (s : string) : list string :=
  match s with
  | EmptyString => [""]
  | String c s' =>
      match skip with
      | S k => split_go sep maxsplit k s'
      | O =>
          match maxsplit with
          | Some O => [s]
          | _ =>
              if startswith sep s
              then "" :: split_go sep (pred <$> maxsplit)
                           (String.length sep - 1) s'
              else cons_head c (split_go sep maxsplit 0 s')
          end
      end
  end.

Definition split (sep : string) (s : string) : list string :=
  split_go sep None 0 s.

Definition split_max (sep : string) (maxsplit : nat) (s : string)
    : list string :=
  split_go sep (Some maxsplit) 0 s.

(** [c in s] for a character [c] *)
Definition contains (c : ascii) (s : string) : bool :=
  existsb (Ascii.eqb c) (list_ascii_of_string s).

(** [s.replace(old, new)] for a non-empty [old] *)
Definition replace (old new : string) (s : string) : string :=
  join new (split old s).

Definition in_chars (chars : string) (c : ascii) : bool :=
  bool_decide (c ∈ list_ascii_of_string chars).

(** The code points below 256 for which [str.isspace] holds. *)
Definition isspace (c : ascii) : bool :=
  let n := nat_of_ascii c in
  ((9 <=? n) && (n <=? 13) || (28 <=? n) && (n <=? 32)
   || (n =? 133) || (n =? 160))%nat.

Fixpoint lstrip (p : ascii -> bool) (s : string) : string :=
  match s with
  | EmptyString => ""
  | String c s' => if p c then lstrip p s' else s
  end.

Definition rstrip (p : ascii -> bool) (s : string) : string :=
  String.rev (lstrip p (String.rev s)).

(** [s.strip(chars)] and [s.strip()] *)
Definition strip_chars (chars : string) (s : string) : string :=
  rstrip (in_chars chars) (lstrip (in_chars chars) s).

Definition strip (s : string) : string :=
  rstrip isspace (lstrip isspace s).

(** Text-mode reading translates ["\r\n"] and a lone ["\r"] to ["\n"]. *)
Definition CR : ascii := ascii_of_nat 13.
Definition LF : ascii := ascii_of_nat 10.

Fixpoint universal_newlines (s : string) : string :=
  match s with
  | EmptyString => ""
  | String c s' =>
      if Ascii.eqb c CR then
        match s' with
        | String d s'' =>
            if Ascii.eqb d LF then String LF (universal_newlines s'')
            else String LF (universal_newlines s')
        | EmptyString => String LF ""
        end
      else String c (universal_newlines s')
  end.

(** The lines a text file yields when iterated: each keeps its ["\n"],
    which only the last line may lack. *)
Fixpoint lines_go (s : string) : list string :=
  match s with
  | EmptyString => []
  | String c s' =>
      if Ascii.eqb c LF then String c "" :: lines_go s'
      else cons_head c (lines_go s')
  end.

Definition readlines (content : string) : list string :=
  lines_go (universal_newlines content).

End Py.

(** ** pandas: [to_datetime] with a format, and data frames

    [pd.to_datetime(col, format=fmt, errors='coerce')] converts each string
    of the column on its own and gives [NaT] (here [None]) where the
    conversion fails.

    What the conversion does is fixed here only for the strings in the
    plain form of the format: every numeric directive written with all its
    digits ([%d], [%m], [%H], [%M], [%S] with two, [%Y] with four), [%b] the
    capitalised English abbreviation, every other character of the format
    met as it stands, a day that exists in its month, a second below 60
    and a year every resolution of pandas holds (1678 to 2261).  Every
    version of pandas reads such a string as the timestamp [strict] gives.

    For every other string the answer depends on the version of pandas and
    on the clock: ["now"] and ["today"] are read as the current time,
    a second of 60 or 61 is carried into the next minute, a field
    without its leading zero or a year such as 0000 is taken by some
    versions and not by others.  That part is the parameter [other] of the
    development: what [pd.to_datetime(s, format=fmt)] does with such a
    string, a timestamp, [NaT] (for a string such as ["NaT"]) or an
    exception.  Only the directives of the two formats of [log_parse.py]
    are interpreted; the month names are those of the C locale. *)

Module Pandas.

(** A timestamp without time zone, to the nanosecond. *)
Record datetime : Type := mk_datetime {
  year : nat; month : nat; day : nat;
  hour : nat; minute : nat; second : nat; nanosecond : nat }.

(** The fields read so far. *)
Record fields : Type := mk_fields {
  f_year : option nat; f_month : option nat; f_day : option nat;
  f_hour : option nat; f_minute : option nat; f_second : option nat }.

Definition no_fields : fields := mk_fields None None None None None None.

Definition digit (c : ascii) : option nat :=
  let n := nat_of_ascii c in
  if ((48 <=? n) && (n <=? 57))%nat then Some (n - 48)%nat else None.

(** Two digits whose value lies between [lo] and [hi]. *)
Definition two_digits (lo hi : nat) (s : string) : option (nat * string) :=
  match s with
  | String c1 (String c2 rest) =>
      match digit c1, digit c2 with
      | Some a, Some b =>
          let v := (10 * a + b)%nat in
          if ((lo <=? v) && (v <=? hi))%nat then Some (v, rest) else None
      | _, _ => None
      end
  | _ => None
  end.

Definition four_digits (s : string) : option (nat * string) :=
  match s with
  | String c1 (String c2 (String c3 (String c4 rest))) =>
      match digit c1, digit c2, digit c3, digit c4 with
      | Some a, Some b, Some c, Some d =>
          Some ((1000 * a + 100 * b + 10 * c + d)%nat, rest)
      | _, _, _, _ => None
      end
  | _ => None
  end.

Definition month_abbr : list (string * nat) :=
  [("Jan", 1); ("Feb", 2); ("Mar", 3); ("Apr", 4); ("May", 5); ("Jun", 6);
   ("Jul", 7); ("Aug", 8); ("Sep", 9); ("Oct", 10); ("Nov", 11);
   ("Dec", 12)]%nat.

(** [%b] *)
Definition month_name (s : string) : option (nat * string) :=
  match s with
  | String c1 (String c2 (String c3 rest)) =>
      let key := String c1 (String c2 (String c3 "")) in
      match List.find (fun e => String.eqb (fst e) key) month_abbr with
      | Some (_, m) => Some (m, rest)
      | None => None
      end
  | _ => None
  end.

(** Match [s] against the rest [fmt] of the format. *)
Fixpoint strict_go (fmt : string) (s : string) (acc : fields)
    : option fields :=
  match fmt with
  | EmptyString => match s with EmptyString => Some acc | _ => None end
  | String "%" (String d fmt') =>
      let continue (set : nat -> fields) (read : option (nat * string)) :=
        match read with
        | Some (v, s') => strict_go fmt' s' (set v)
        | None => None
        end in
      match d with
      | "d"%char =>
          continue (fun v => mk_fields (f_year acc) (f_month acc) (Some v)
                               (f_hour acc) (f_minute acc) (f_second acc))
            (two_digits 1 31 s)
      | "m"%char =>
          continue (fun v => mk_fields (f_year acc) (Some v) (f_day acc)
                               (f_hour acc) (f_minute acc) (f_second acc))
            (two_digits 1 12 s)
      | "b"%char =>
          continue (fun v => mk_fields (f_year acc) (Some v) (f_day acc)
                               (f_hour acc) (f_minute acc) (f_second acc))
            (month_name s)
      | "Y"%char =>
          continue (fun v => mk_fields (Some v) (f_month acc) (f_day acc)
                               (f_hour acc) (f_minute acc) (f_second acc))
            (four_digits s)
      | "H"%char =>
          continue (fun v => mk_fields (f_year acc) (f_month acc) (f_day acc)
                               (Some v) (f_minute acc) (f_second acc))
            (two_digits 0 23 s)
      | "M"%char =>
          continue (fun v => mk_fields (f_year acc) (f_month acc) (f_day acc)
                               (f_hour acc) (Some v) (f_second acc))
            (two_digits 0 59 s)
      | "S"%char =>
          continue (fun v => mk_fields (f_year acc) (f_month acc) (f_day acc)
                               (f_hour acc) (f_minute acc) (Some v))
            (two_digits 0 59 s)
      | _ => None
      end
  | String c fmt' =>
      match s with
      | String c' s' => if Ascii.eqb c c' then strict_go fmt' s' acc else None
      | EmptyString => None
      end
  end.

Definition leap (y : nat) : bool :=
  ((y mod 4 =? 0) && negb (y mod 100 =? 0) || (y mod 400 =? 0))%nat.

Definition days_in_month (y m : nat) : nat :=
  match m with
  | 2 => if leap y then 29 else 28
  | 4 | 6 | 9 | 11 => 30
  | _ => 31
  end%nat.

(** The timestamp of the fields, for a day that exists in its month and
    a year within the range; a field the format does not mention takes the
    default of [strptime], 1900-01-01 00:00:00. *)
Definition timestamp_of (f : fields) : option datetime :=
  let y := default 1900%nat (f_year f) in
  let m := default 1%nat (f_month f) in
  let d := default 1%nat (f_day f) in
  if ((1678 <=? y) && (y <=? 2261) && (d <=? days_in_month y m))%nat
  then Some (mk_datetime y m d (default 0%nat (f_hour f))
               (default 0%nat (f_minute f)) (default 0%nat (f_second f)) 0)
  else None.

(** The timestamp of a string in the plain form of the format. *)
Definition strict (fmt : string) (s : string) : option datetime :=
  strict_go fmt s no_fields ≫= timestamp_of.

(** [pd.to_datetime(s, format=fmt)] on a string that is not in the plain
    form: a timestamp, [NaT] or an exception. *)
Class Library : Type := other : string -> string -> result (option datetime).

(** [pd.to_datetime(s, format=fmt)], which raises when the conversion
    fails. *)
Definition convert `{Library} (fmt : string) (s : string)
    : result (option datetime) :=
  match strict fmt s with
  | Some t => OK (Some t)
  | None => other fmt s
  end.

(** [errors='coerce']: [NaT] where the conversion fails. *)
Definition coerce (r : result (option datetime)) : option datetime :=
  match r with
  | OK t => t
  | Raise _ => None
  end.

Definition cell `{Library} (fmt : string) (s : string) : option datetime :=
  coerce (convert fmt s).

(** [pd.to_datetime(col, format=fmt, errors='coerce')] *)
Definition to_datetime `{Library} (fmt : string) (col : list string)
    : list (option datetime) :=
  cell fmt <$> col.

(** A library that converts the plain form and nothing else, for the
    sample files below; none of them has a string on which the versions of
    pandas differ. *)
Definition plain : Library := fun _ _ => Raise ValueError.

End Pandas.

(** ** The access-log tokenizer: [parse_access_log_file] *)

Module AccessLog.

Definition DQUOTE : ascii := ascii_of_nat 34.
Definition QUOTE : string := String DQUOTE "".

Definition requests : list string :=
  ["GET"; "POST"; "PUT"; "DELETE"; "PATCH"; "HEAD"; "OPTIONS"; "CONNECT";
   "TRACE"].

(** The local lists of the function and its counter. *)
Record columns : Type := mk_columns {
  ip : list string;
  datetime : list string;
  request : list (option string);
  url : list (option string);
  status_code : list string;
  user_agent : list (list string);
  errors : Z }.

Definition start : columns := mk_columns [] [] [] [] [] [] 0.

Definition ip_append (x : string) (st : columns) : columns :=
  mk_columns (ip st ++ [x]) (datetime st) (request st) (url st)
    (status_code st) (user_agent st) (errors st).
Definition datetime_append (x : string) (st : columns) : columns :=
  mk_columns (ip st) (datetime st ++ [x]) (request st) (url st)
    (status_code st) (user_agent st) (errors st).
Definition request_append (x : option string) (st : columns) : columns :=
  mk_columns (ip st) (datetime st) (request st ++ [x]) (url st)
    (status_code st) (user_agent st) (errors st).
Definition url_append (x : option string) (st : columns) : columns :=
  mk_columns (ip st) (datetime st) (request st) (url st ++ [x])
    (status_code st) (user_agent st) (errors st).
Definition status_code_append (x : string) (st : columns) : columns :=
  mk_columns (ip st) (datetime st) (request st) (url st)
    (status_code st ++ [x]) (user_agent st) (errors st).
Definition user_agent_append (x : list string) (st : columns) : columns :=
  mk_columns (ip st) (datetime st) (request st) (url st)
    (status_code st) (user_agent st ++ [x]) (errors st).
Definition errors_add (n : Z) (st : columns) : columns :=
  mk_columns (ip st) (datetime st) (request st) (url st)
    (status_code st) (user_agent st) (errors st + n).

(** Lines 54-85: the method and the URL of the request. *)
Definition request_step (parts : list string) (st : columns)
    : result columns :=
  if (1 <? length parts)%nat then
    p1 ← Py.index parts 1;
    let log_part := Py.split " " p1 in
    if (1 <? length log_part)%nat then
      l0 ← Py.index log_part 0;
      if Py.mem l0 requests then
        let st := request_append (Some l0) st in
        OK (url_append (Some (Py.join " " (Py.slice log_part 1 (-1)))) st)
      else
        let st := request_append None st in
        let st := errors_add 1 st in
        OK (url_append (Some (Py.join " " log_part)) st)
    else
      let st := request_append None st in
      let st := url_append None st in
      OK (errors_add 2 st)
  else
    let st := request_append None st in
    let st := url_append None st in
    OK (errors_add 2 st).

(** Lines 88-97: user agent, client address, date and status code. *)
Definition fields_step (parts : list string) (st : columns)
    : result columns :=
  let st := user_agent_append (Py.slice_from parts 5) st in
  p0 ← Py.index parts 0;
  i0 ← Py.index (Py.split " " p0) 0;
  let st := ip_append i0 st in
  p0 ← Py.index parts 0;
  d3 ← Py.index (Py.split " " p0) 3;
  let st := datetime_append d3 st in
  p2 ← Py.index parts 2;
  s1 ← Py.index (Py.split " " p2) 1;
  OK (status_code_append s1 st).

(** The body of [for line in f]. *)
Definition line_body (line : string) (st : columns) : result columns :=
  let parts := Py.split QUOTE line in
  st ← request_step parts st;
  fields_step parts st.

(** A row of the data frame; [None] is [None] or [NaT]. *)
Record row : Type := mk_row {
  row_ip : string;
  row_datetime : option Pandas.datetime;
  row_request : option string;
  row_url : option string;
  row_status_code : string;
  row_user_agent : list string }.

Definition datetime_format : string := "[%d/%b/%Y:%H:%M:%S".

Definition same_length (st : columns) : bool :=
  let n := length (ip st) in
  ((length (datetime st) =? n) && (length (request st) =? n)
   && (length (url st) =? n) && (length (status_code st) =? n)
   && (length (user_agent st) =? n))%nat.

Definition ap {A B : Type} (fs : list (A -> B)) (xs : list A) : list B :=
  zip_with (fun f x => f x) fs xs.

(** Lines 100-110: [pd.DataFrame] refuses columns of different lengths;
    the date column is then converted. *)
Definition frame `{Pandas.Library} (st : columns) : list row :=
  ap (ap (ap (ap (zip_with mk_row (ip st)
                    (Pandas.to_datetime datetime_format (datetime st)))
                (request st)) (url st)) (status_code st))
    (user_agent st).

Definition DataFrame `{Pandas.Library} (st : columns)
    : result (list row) :=
  if same_length st then OK (frame st) else Raise ValueError.

(** The function on the lines of the opened file: the data frame it
    returns and the count it logs. *)
Definition parse_lines `{Pandas.Library} (lines : list string)
    : result (list row * Z) :=
  st ← for_each line_body lines start;
  df ← DataFrame st;
  OK (df, errors st).

(** Column-wise concatenation, and the counters added. *)
Definition app (a b : columns) : columns :=
  mk_columns (ip a ++ ip b) (datetime a ++ datetime b)
    (request a ++ request b) (url a ++ url b)
    (status_code a ++ status_code b) (user_agent a ++ user_agent b)
    (errors a + errors b).

(** The malformed units of a line as the specification counts them: two
    when there is no quoted segment or its request has a single token, one
    when the first token is no method, none otherwise.  Only the first
    quoted segment is looked at. *)
Definition units_of_parts (parts : list string) : Z :=
  match parts !! 1%nat with
  | None => 2
  | Some p1 =>
      match Py.split " " p1 with
      | l0 :: _ :: _ => if Py.mem l0 requests then 0 else 1
      | _ => 2
      end
  end.

Definition malformed_units (line : string) : Z :=
  units_of_parts (Py.split QUOTE line).

(** A line of the shape of the sample line of [test.py], with the client
    address, the path and the status code left open; [eol] is the line
    terminator, if the line has one. *)
Definition shaped_line (x path status eol : string) : string :=
  Py.join QUOTE
    [Py.join " " [x; "-"; "-"; "[29/Sep/2024:00:24:27"; "+0200]"; ""];
     Py.join " " ["GET"; path; "HTTP/1.1"];
     Py.join " " [""; status; "162"; ""];
     "-"; " "; "Go-http-client/1.1"; eol].

(** A token: no blank and no quote in it. *)
Definition token (s : string) : Prop :=
  Py.contains " " s = false /\ Py.contains DQUOTE s = false.

Definition total_units (lines : list string) : Z :=
  foldr Z.add 0 (malformed_units <$> lines).

(** The row a line gives when it is the whole file. *)
Definition row_of_line `{Pandas.Library} (line : string) (r : row) : Prop :=
  exists u, parse_lines [line] = OK ([r], u).


End AccessLog.

(** ** The error-log tokenizer: [parse_error_log] *)

Module ErrorLog.

Record columns : Type := mk_columns {
  date_time : list string;
  error_level : list string;
  process_id : list string;
  message : list string;
  client_ip : list string;
  server : list string;
  request : list string;
  host : list string }.

Definition start : columns := mk_columns [] [] [] [] [] [] [] [].

Definition date_time_append (x : string) (st : columns) : columns :=
  mk_columns (date_time st ++ [x]) (error_level st) (process_id st)
    (message st) (client_ip st) (server st) (request st) (host st).
Definition error_level_append (x : string) (st : columns) : columns :=
  mk_columns (date_time st) (error_level st ++ [x]) (process_id st)
    (message st) (client_ip st) (server st) (request st) (host st).
Definition process_id_append (x : string) (st : columns) : columns :=
  mk_columns (date_time st) (error_level st) (process_id st ++ [x])
    (message st) (client_ip st) (server st) (request st) (host st).
Definition message_append (x : string) (st : columns) : columns :=
  mk_columns (date_time st) (error_level st) (process_id st)
    (message st ++ [x]) (client_ip st) (server st) (request st) (host st).
Definition client_ip_append (x : string) (st : columns) : columns :=
  mk_columns (date_time st) (error_level st) (process_id st)
    (message st) (client_ip st ++ [x]) (server st) (request st) (host st).
Definition server_append (x : string) (st : columns) : columns :=
  mk_columns (date_time st) (error_level st) (process_id st)
    (message st) (client_ip st) (server st ++ [x]) (request st) (host st).
Definition request_append (x : string) (st : columns) : columns :=
  mk_columns (date_time st) (error_level st) (process_id st)
    (message st) (client_ip st) (server st) (request st ++ [x]) (host st).
Definition host_append (x : string) (st : columns) : columns :=
  mk_columns (date_time st) (error_level st) (process_id st)
    (message st) (client_ip st) (server st) (request st) (host st ++ [x]).

(** [parts[i].split(': ')[1]] *)
Definition after_colon (parts : list string) (i : nat) : result string :=
  p ← Py.index parts i;
  Py.index (Py.split ": " p) 1.

(** The body of [for line in f], lines 151-172. *)
Definition line_body (line : string) (st : columns) : result columns :=
  let parts := Py.split ", " line in
  p0 ← Py.index parts 0;
  d0 ← Py.index (Py.split " " p0) 0;
  p0 ← Py.index parts 0;
  d1 ← Py.index (Py.split " " p0) 1;
  let st := date_time_append (d0 +:+ " " +:+ d1) st in
  p0 ← Py.index parts 0;
  l2 ← Py.index (Py.split " " p0) 2;
  let st := error_level_append (Py.strip_chars "[]" l2) st in
  p0 ← Py.index parts 0;
  w3 ← Py.index (Py.split " " p0) 3;
  pid ← Py.index (Py.split "#" w3) 1;
  let st := process_id_append pid st in
  p1 ← Py.index parts 1;
  m1 ← Py.index (Py.split_max ":" 1 p1) 1;
  let message_part := Py.strip m1 in
  let st := message_append message_part st in
  c ← after_colon parts 2;
  let st := client_ip_append c st in
  c ← after_colon parts 3;
  let st := server_append c st in
  c ← after_colon parts 4;
  let st := request_append c st in
  c ← after_colon parts 5;
  OK (host_append c st).

Record row : Type := mk_row {
  row_date_time : option Pandas.datetime;
  row_error_level : string;
  row_process_id : string;
  row_message : string;
  row_client_ip : string;
  row_server : string;
  row_request : string;
  row_host : string }.

Definition date_time_format : string := "%Y/%m/%d %H:%M:%S".

Definition same_length (st : columns) : bool :=
  let n := length (date_time st) in
  ((length (error_level st) =? n) && (length (process_id st) =? n)
   && (length (message st) =? n) && (length (client_ip st) =? n)
   && (length (server st) =? n) && (length (request st) =? n)
   && (length (host st) =? n))%nat.

Definition ap {A B : Type} (fs : list (A -> B)) (xs : list A) : list B :=
  zip_with (fun f x => f x) fs xs.

(** Lines 175-187. *)
Definition frame `{Pandas.Library} (st : columns) : list row :=
  ap (ap (ap (ap (ap (ap
    (zip_with mk_row
       (Pandas.to_datetime date_time_format (date_time st))
       (error_level st))
    (process_id st)) (message st)) (client_ip st)) (server st))
    (request st)) (host st).

Definition DataFrame `{Pandas.Library} (st : columns)
    : result (list row) :=
  if same_length st then OK (frame st) else Raise ValueError.

(** The function on the lines of the opened file. *)
Definition parse_lines `{Pandas.Library} (lines : list string)
    : result (list row) :=
  st ← for_each line_body lines start;
  DataFrame st.

Definition app (a b : columns) : columns :=
  mk_columns (date_time a ++ date_time b) (error_level a ++ error_level b)
    (process_id a ++ process_id b) (message a ++ message b)
    (client_ip a ++ client_ip b) (server a ++ server b)
    (request a ++ request b) (host a ++ host b).

(** The row a line gives when it is the whole file. *)
Definition row_of_line `{Pandas.Library} (line : string) (r : row) : Prop :=
  parse_lines [line] = OK [r].

(** A line of the grammar. *)
Definition sample_line : string :=
  "2024/09/29 10:15:03 [error] 1234#5678: *1 recv() failed, upstream: timed out, client: 1.2.3.4, server: example.com, request: GET / HTTP/1.1, host: example.com".

(** [l] has an element at index [i]. *)
Definition has {A : Type} (l : list A) (i : nat) : bool :=
  (i <? length l)%nat.

Definition field (l : list string) (i : nat) : string :=
  default "" (l !! i).


(** The grammar the positional splits rely on: six or more fields
    separated by [", "]; four or more blank-separated tokens in the first
    field, the fourth with a [#]; a colon in the second field; [": "] in
    each of the third to the sixth field. *)
Definition fits (line : string) : bool :=
  let parts := Py.split ", " line in
  let words := Py.split " " (field parts 0) in
  has parts 5 && has words 3
  && has (Py.split "#" (field words 3)) 1
  && has (Py.split_max ":" 1 (field parts 1)) 1
  && has (Py.split ": " (field parts 2)) 1
  && has (Py.split ": " (field parts 3)) 1
  && has (Py.split ": " (field parts 4)) 1
  && has (Py.split ": " (field parts 5)) 1.

(** The entries of a line by position, as the specification lists them. *)
Definition extract (line : string) : columns :=
  let parts := Py.split ", " line in
  let words := Py.split " " (field parts 0) in
  mk_columns
    [field words 0 +:+ " " +:+ field words 1]
    [Py.strip_chars "[]" (field words 2)]
    [field (Py.split "#" (field words 3)) 1]
    [Py.strip (field (Py.split_max ":" 1 (field parts 1)) 1)]
    [field (Py.split ": " (field parts 2)) 1]
    [field (Py.split ": " (field parts 3)) 1]
    [field (Py.split ": " (field parts 4)) 1]
    [field (Py.split ": " (field parts 5)) 1].

End ErrorLog.

(** ** Files, logging and the aggregation pipeline: [parse_all_files] *)

Inductive table : Type :=
  | AccessTable (rows : list AccessLog.row)
  | ErrorTable (rows : list ErrorLog.row).

Definition data_rows (t : table) : nat :=
  match t with
  | AccessTable rows => length rows
  | ErrorTable rows => length rows
  end.

(** A file is its text, or the table [to_csv] wrote to it, or cannot be
    opened (no permission, a directory). *)
Inductive file : Type :=
  | Text (content : string)
  | Csv (t : table)
  | Unreadable.

(** The messages of [logger.info]. *)
Inductive event : Type :=
  | FileAdded (log_file_path : string) (errors : Z)
  | ErrorFileAdded (log_file_path : string)
  | ParsingAccessLog (log_file : string)
  | AccessLogsExported (path : string)
  | ProcessingErrorLog (log_file : string)
  | ErrorLogsExported (path : string).

Record world : Type := mk_world {
  files : gmap string file;
  log : list event }.

(** Code that reads and writes the world and may raise. *)
Definition M (A : Type) : Type := world -> world * result A.

#[global] Instance M_ret : MRet M := fun A a w => (w, OK a).
#[global] Instance M_bind : MBind M := fun A B k m w =>
  match m w with
  | (w', OK a) => k a w'
  | (w', Raise e) => (w', Raise e)
  end.

Definition lift {A : Type} (r : result A) : M A := fun w => (w, r).

Definition logger_info (e : event) : M unit := fun w =>
  (mk_world (files w) (log w ++ [e]), OK tt).

Fixpoint for_each_M {A S : Type} (body : A -> S -> M S) (xs : list A)
    (st : S) : M S :=
  match xs with
  | [] => mret st
  | x :: xs' => st' ← body x st; for_each_M body xs' st'
  end.

(** [os.path.join(a, b)] *)
Definition path_join (a b : string) : string :=
  if Py.startswith "/" b then b
  else if String.eqb a "" || Py.startswith "/" (String.rev a) then a +:+ b
  else a +:+ "/" +:+ b.

(** Shell-style matching of a path against a pattern: [*] and [?] do not
    cross a directory separator. *)
Fixpoint wild (pat : string) (s : string) : bool :=
  match pat with
  | EmptyString => String.eqb s ""
  | String p pat' =>
      if Ascii.eqb p "*" then
        (fix star (s : string) : bool :=
           wild pat' s
           || match s with
              | String c s' => negb (Ascii.eqb c "/") && star s'
              | EmptyString => false
              end) s
      else
        match s with
        | String c s' =>
            (if Ascii.eqb p "?" then negb (Ascii.eqb c "/") else Ascii.eqb p c)
            && wild pat' s'
        | EmptyString => false
        end
  end.

Definition basename (path : string) : string :=
  default "" (last (Py.split "/" path)).

Definition hidden (name : string) : bool := Py.startswith "." name.

(** The paths [df.to_csv] can open for writing: the directory is there and
    may be written to, and the path is no directory.  [OSError] stands for
    the exception of [open], [OSError] or one of its subclasses. *)
Class Writable : Type := writable : string -> bool.

Section Pipeline.

(** The text of the CSV file pandas writes for a table. *)
Variable csv_text : table -> string.

Context `{Pandas.Library} `{Writable}.

(** [glob(pathname)]: the paths that match, in directory order; a name
    with a leading dot is left out unless the pattern has one. *)
Definition matching (fs : gmap string file) (pathname : string)
    : list string :=
  List.filter
    (fun path => wild pathname path
                 && implb (hidden (basename path))
                      (hidden (basename pathname)))
    (fst <$> map_to_list fs).

Definition glob (pathname : string) : M (list string) := fun w =>
  (w, OK (matching (files w) pathname)).

(** [open(path, 'r')] followed by the iteration over the lines. *)
Definition file_lines (f : option file) : result (list string) :=
  match f with
  | None => Raise FileNotFoundError
  | Some Unreadable => Raise PermissionError
  | Some (Text content) => OK (Py.readlines content)
  | Some (Csv t) => OK (Py.readlines (csv_text t))
  end.

Definition open_lines (path : string) : M (list string) := fun w =>
  (w, file_lines (files w !! path)).

(** [df.to_csv(path, index=False)]: the file is opened for writing, which
    truncates it; where it cannot be opened the call raises and nothing is
    written. *)
Definition to_csv (t : table) (path : string) : M unit := fun w =>
  if writable path
  then (mk_world (<[path := Csv t]> (files w)) (log w), OK tt)
  else (w, Raise OSError).

Definition parse_access_log_file (log_file_path : string)
    : M (list AccessLog.row) :=
  lines ← open_lines log_file_path;
  '(df_logs, errors) ← lift (AccessLog.parse_lines lines);
  _ ← logger_info (FileAdded log_file_path errors);
  mret df_logs.

Definition parse_error_log (log_file_path : string)
    : M (list ErrorLog.row) :=
  lines ← open_lines log_file_path;
  df_error_logs ← lift (ErrorLog.parse_lines lines);
  _ ← logger_info (ErrorFileAdded log_file_path);
  mret df_error_logs.

(** [pd.concat([a, b], ignore_index=True)] *)
Definition concat {A : Type} (a b : list A) : list A := a ++ b.

Definition access_loop (access_log_files : list string)
    : M (list AccessLog.row) :=
  for_each_M (fun log_file all_access_logs_df =>
      _ ← logger_info (ParsingAccessLog log_file);
      df_access_log ← parse_access_log_file log_file;
      mret (concat all_access_logs_df df_access_log))
    access_log_files [].

Definition error_loop (error_log_files : list string)
    : M (list ErrorLog.row) :=
  for_each_M (fun log_file all_error_logs_df =>
      _ ← logger_info (ProcessingErrorLog log_file);
      df_error_log ← parse_error_log log_file;
      mret (concat all_error_logs_df df_error_log))
    error_log_files [].

Definition parse_all_files
    (access_logs_directory error_logs_directory : string)
    (output_csv_access_path output_csv_error_path : string) : M unit :=
  access_log_files ← glob (path_join access_logs_directory "*.log.*");
  all_access_logs_df ← access_loop access_log_files;
  _ ← to_csv (AccessTable all_access_logs_df) output_csv_access_path;
  _ ← logger_info (AccessLogsExported output_csv_access_path);
  error_log_files ← glob (path_join error_logs_directory "*.log");
  all_error_logs_df ← error_loop error_log_files;
  _ ← to_csv (ErrorTable all_error_logs_df) output_csv_error_path;
  logger_info (ErrorLogsExported output_csv_error_path).

(** The world after [n] runs of the pipeline with the same arguments. *)
Definition rerun (n : nat)
    (access_logs_directory error_logs_directory : string)
    (output_csv_access_path output_csv_error_path : string) (w : world)
    : world :=
  Nat.iter n
    (fun w => fst (parse_all_files access_logs_directory error_logs_directory
                     output_csv_access_path output_csv_error_path w)) w.

End Pipeline.

(** Sample worlds.  [blank_csv] stands in for the CSV writer where its
    text is never read. *)
Definition blank_csv : table -> string := fun _ => "".

(** Every output directory is there and may be written to. *)
Definition every_path : Writable := fun _ => true.

(** The directory [missing/] is not there. *)
Definition no_missing_directory : Writable := fun path =>
  negb (Py.startswith "missing/" path).

Definition EOL : string := String Py.LF "".

Definition sample_access : string := AccessLog.shaped_line "x" "/path" "404" EOL.

Definition two_files : world :=
  mk_world
    (list_to_map
       [("logs/access/access.log.1",
         Text (sample_access +:+ AccessLog.shaped_line "y" "/" "200" EOL));
        ("logs/access/access.log.2", Text sample_access);
        ("logs/error/error.log", Text (ErrorLog.sample_line +:+ EOL))])
    [].

Definition unquoted_line : world :=
  mk_world
    (list_to_map
       [("logs/access/access.log.1",
         Text (sample_access +:+ "no quoted segment here" +:+ EOL))])
    [].

Definition unfit_error_log : world :=
  mk_world
    (list_to_map
       [("logs/access/access.log.1", Text sample_access);
        ("logs/error/error.log", Text ("not an error line" +:+ EOL))])
    [].

Definition unreadable_file : world :=
  mk_world
    (list_to_map
       [("logs/access/access.log.1", Unreadable);
        ("logs/access/access.log.2", Text sample_access)])
    [].

(** ** The collector's control flow: [log_download] *)

Module Collector.

(** How a block of statements ends. *)
Inductive outcome (A : Type) : Type :=
  | Normal (a : A)
  | Returned
  | Raised (e : exn).
Arguments Normal {A} a.
Arguments Returned {A}.
Arguments Raised {A} e.

(** The messages of the logger. *)
Inductive message : Type :=
  | Found (n : Z)
  | RemotePathNotFound (remote_log_path : string)
  | TryingToDownload (remote_file : string)
  | DownloadedTo (remote_file local_file : string)
  | Decompressing (local_file : string)
  | RemoteFileNotFound (remote_file : string)
  | ErrorWhileDownloading (remote_file : string) (e : exn)
  | DownloadedCount (files_downloaded : Z)
  | OnlySomeDownloaded (files_downloaded n : Z)
  | AllDownloaded (files_downloaded : Z)
  | Decompressed (local_file decompressed_file : string)
  | NotFoundForDecompression (local_file : string)
  | BadGzip (local_file : string)
  | ErrorWhileDecompressing (local_file : string) (e : exn).

(** The two local variables the cleanup reads ([None]: not assigned yet),
    the local directory, the log and the two connections. *)
Record state : Type := mk_state {
  files : option (list string);
  files_downloaded : option Z;
  local_files : gmap string string;
  log : list message;
  sftp_closed : bool;
  client_closed : bool }.

Definition C (A : Type) : Type := state -> state * outcome A.

#[global] Instance C_ret : MRet C := fun A a s => (s, Normal a).
#[global] Instance C_bind : MBind C := fun A B k m s =>
  match m s with
  | (s', Normal a) => k a s'
  | (s', Returned) => (s', Returned)
  | (s', Raised e) => (s', Raised e)
  end.

Definition of_result {A : Type} (r : result A) : C A := fun s =>
  match r with
  | OK a => (s, Normal a)
  | Raise e => (s, Raised e)
  end.

Definition return_ {A : Type} : C A := fun s => (s, Returned).

(** [try: body / except: handler], the handler chosen by the exception. *)
Definition try_except {A : Type} (body : C A) (handler : exn -> option (C A))
    : C A := fun s =>
  match body s with
  | (s', Raised e) =>
      match handler e with
      | Some h => h s'
      | None => (s', Raised e)
      end
  | r => r
  end.

(** [try: body / finally: cleanup]: the cleanup runs however the body
    ends, and the way the cleanup ends wins unless it ends normally. *)
Definition try_finally {A : Type} (body : C A) (cleanup : C unit) : C A :=
  fun s =>
  match body s with
  | (s', r) =>
      match cleanup s' with
      | (s'', Normal _) => (s'', r)
      | (s'', Returned) => (s'', Returned)
      | (s'', Raised e) => (s'', Raised e)
      end
  end.

Definition logger (m : message) : C unit := fun s =>
  (mk_state (files s) (files_downloaded s) (local_files s) (log s ++ [m])
     (sftp_closed s) (client_closed s), Normal tt).

(** Reading a local variable that has no value raises. *)
Definition get_files : C (list string) := fun s =>
  match files s with
  | Some v => (s, Normal v)
  | None => (s, Raised UnboundLocalError)
  end.

Definition get_files_downloaded : C Z := fun s =>
  match files_downloaded s with
  | Some v => (s, Normal v)
  | None => (s, Raised UnboundLocalError)
  end.

Definition set_files (v : list string) : C unit := fun s =>
  (mk_state (Some v) (files_downloaded s) (local_files s) (log s)
     (sftp_closed s) (client_closed s), Normal tt).

Definition set_files_downloaded (v : Z) : C unit := fun s =>
  (mk_state (files s) (Some v) (local_files s) (log s)
     (sftp_closed s) (client_closed s), Normal tt).

Definition update_local (f : gmap string string -> gmap string string)
    : C unit := fun s =>
  (mk_state (files s) (files_downloaded s) (f (local_files s)) (log s)
     (sftp_closed s) (client_closed s), Normal tt).

Definition read_local (path : string) : C string := fun s =>
  match local_files s !! path with
  | Some data => (s, Normal data)
  | None => (s, Raised FileNotFoundError)
  end.

Definition sftp_close : C unit := fun s =>
  (mk_state (files s) (files_downloaded s) (local_files s) (log s)
     true (client_closed s), Normal tt).

Definition client_close : C unit := fun s =>
  (mk_state (files s) (files_downloaded s) (local_files s) (log s)
     (sftp_closed s) true, Normal tt).

Fixpoint for_each_C {A : Type} (body : A -> C unit) (xs : list A) : C unit :=
  match xs with
  | [] => mret tt
  | x :: xs' => _ ← body x; for_each_C body xs'
  end.

Definition when (b : bool) (c : C unit) : C unit :=
  if b then c else mret tt.

Section Remote.

(** The remote host and the gzip decoder. *)
Variable connect : string -> string -> string -> string -> result unit.
Variable listdir : string -> result (list string).
Variable remote_read : string -> result string.
Variable gunzip : string -> result string.

(** [sftp.get(remote_file, local_file)] *)
Definition sftp_get (remote_file local_file : string) : C unit :=
  data ← of_result (remote_read remote_file);
  update_local (insert local_file data).

Definition decompress_files (local_log_file_path : string) : C unit :=
  try_except
    (let decompressed_file_path := Py.replace ".gz" "" local_log_file_path in
     data ← read_local local_log_file_path;
     _ ← update_local (insert decompressed_file_path "");
     plain ← of_result (gunzip data);
     _ ← update_local (insert decompressed_file_path plain);
     _ ← logger (Decompressed local_log_file_path decompressed_file_path);
     update_local (delete local_log_file_path))
    (fun e =>
       match e with
       | FileNotFoundError =>
           Some (logger (NotFoundForDecompression local_log_file_path))
       | BadGzipFile => Some (logger (BadGzip local_log_file_path))
       | _ => Some (logger (ErrorWhileDecompressing local_log_file_path e))
       end).

(** Lines 69-101: the body of [for file in files]. *)
Definition download_one (remote_log_path local_access_log_path
    local_error_log_path : string) (file : string) : C unit :=
  let remote_file := remote_log_path +:+ "/" +:+ file in
  let local_access_file := path_join local_access_log_path file in
  let local_error_file := path_join local_error_log_path file in
  try_except
    (_ ← logger (TryingToDownload remote_file);
     _ ← (if Py.startswith "access" file then
            _ ← sftp_get remote_file local_access_file;
            logger (DownloadedTo remote_file local_access_file)
          else if Py.startswith "error" file then
            _ ← sftp_get remote_file local_error_file;
            logger (DownloadedTo remote_file local_error_file)
          else mret tt);
     n ← get_files_downloaded;
     _ ← set_files_downloaded (n + 1);
     when (Py.endswith ".gz" file)
       (if Py.startswith "access" file then
          _ ← logger (Decompressing local_access_file);
          decompress_files local_access_file
        else if Py.startswith "error" file then
          _ ← logger (Decompressing local_error_file);
          decompress_files local_error_file
        else mret tt))
    (fun e =>
       match e with
       | FileNotFoundError => Some (logger (RemoteFileNotFound remote_file))
       | _ => Some (logger (ErrorWhileDownloading remote_file e))
       end).

(** Lines 103-111: the [finally] block. *)
Definition cleanup : C unit :=
  n ← get_files_downloaded;
  _ ← logger (DownloadedCount n);
  n ← get_files_downloaded;
  fs ← get_files;
  _ ← (if n <? Z.of_nat (length fs) then
         n ← get_files_downloaded;
         fs ← get_files;
         logger (OnlySomeDownloaded n (Z.of_nat (length fs)))
       else
         n ← get_files_downloaded;
         fs ← get_files;
         if n =? Z.of_nat (length fs) then
           n ← get_files_downloaded;
           logger (AllDownloaded n)
         else mret tt);
  _ ← sftp_close;
  client_close.

Definition log_download (host username password port remote_log_path
    local_access_log_path local_error_log_path : string) : C unit :=
  _ ← of_result (connect host username password port);
  try_finally
    (_ ← try_except
           (fs ← of_result (listdir remote_log_path);
            _ ← set_files fs;
            fs ← get_files;
            logger (Found (Z.of_nat (length fs))))
           (fun e =>
              match e with
              | FileNotFoundError =>
                  Some (_ ← logger (RemotePathNotFound remote_log_path);
                        return_)
              | _ => None
              end);
     _ ← set_files_downloaded 0;
     fs ← get_files;
     for_each_C (download_one remote_log_path local_access_log_path
                   local_error_log_path) fs)
    cleanup.

(** The state in which the function starts. *)
Definition entry (local : gmap string string) : state :=
  mk_state None None local [] false false.

End Remote.

End Collector.

(** ** Notions used to state further properties *)

(** A sample remote host and a sample decoder. *)
Definition sample_connect (host username password port : string)
    : result unit := OK tt.

Definition sample_listdir (path : string) : result (list string) :=
  if String.eqb path "/var/log/nginx"
  then OK ["access.log"; "error.log.1.gz"; "notes.txt.gz"; "access.log.2.gz"]
  else Raise PermissionError.

Definition sample_read (path : string) : result string :=
  if String.eqb path "/var/log/nginx/access.log" then OK "hello"
  else if String.eqb path "/var/log/nginx/error.log.1.gz" then OK "zipped"
  else Raise FileNotFoundError.

Definition sample_gunzip (data : string) : result string :=
  if String.eqb data "zipped" then OK "plain" else Raise BadGzipFile.

Definition sample_local : gmap string string :=
  list_to_map [("logs/error/error.log.1.gz", "zipped");
               ("logs/access/access.log.3.gz", "junk")].

(** The files the loop of [log_download] counts as downloaded: those whose
    transfer does not raise, and those it does not transfer at all because
    their name starts with neither [access] nor [error]. *)
Definition counted (remote_read : string -> result string)
    (remote_log_path file : string) : bool :=
  if Py.startswith "access" file || Py.startswith "error" file
  then is_OK (remote_read (remote_log_path +:+ "/" +:+ file))
  else true.

Module AccessShape.
Import AccessLog.

(** The [i]-th element of a list of strings, [""] when there is none. *)
Definition segment (l : list string) (i : nat) : string :=
  default "" (l !! i).

(** The lines the body of the loop gets through: three or more
    quote-delimited segments, four or more blank-separated tokens before
    the first quote, and two or more in the third segment. *)
Definition gets_through (line : string) : bool :=
  let parts := Py.split QUOTE line in
  ((2 <? length parts) && (3 <? length (Py.split " " (segment parts 0)))
   && (1 <? length (Py.split " " (segment parts 2))))%nat.

(** The malformed units a row stands for. *)
Definition row_units (r : row) : Z :=
  match row_request r, row_url r with
  | Some _, _ => 0
  | None, Some _ => 1
  | None, None => 2
  end.

Definition frame_units (df : list row) : Z :=
  foldr Z.add 0 (row_units <$> df).

(** The method and the URL read from the quote-delimited segments. *)
Definition classify (parts : list string)
    : option string * option string :=
  match parts !! 1%nat with
  | None => (None, None)
  | Some p1 =>
      match Py.split " " p1 with
      | l0 :: l1 :: rest =>
          if Py.mem l0 requests
          then (Some l0,
                Some (Py.join " " (Py.slice (l0 :: l1 :: rest) 1 (-1))))
          else (None, Some (Py.join " " (l0 :: l1 :: rest)))
      | _ => (None, None)
      end
  end.

End AccessShape.

(** ** The loop of [test.py]: [parse_log_file] *)

Module TestScript.

Inductive printed : Type :=
  | PrintParts (parts : list string)
  | PrintRequest (request : list (option string))
  | PrintUrl (url : list (option string)).

(** The two lists the loop fills, and what it has printed. *)
Record state : Type := mk_state {
  request : list (option string);
  url : list (option string);
  output : list printed }.

Definition start : state := mk_state [] [] [].

Definition print (x : printed) (st : state) : state :=
  mk_state (request st) (url st) (output st ++ [x]).
Definition request_append (x : option string) (st : state) : state :=
  mk_state (request st ++ [x]) (url st) (output st).
Definition url_append (x : option string) (st : state) : state :=
  mk_state (request st) (url st ++ [x]) (output st).

(** Lines 18-41: the body of [for line in log_file_path]. *)
Definition line_body (line : string) (st : state) : result state :=
  let parts := Py.split AccessLog.QUOTE line in
  let st := print (PrintParts parts) st in
  st ← (if (1 <? length parts)%nat then
          p1 ← Py.index parts 1;
          let log_part := Py.split " " p1 in
          if (1 <? length log_part)%nat then
            l0 ← Py.index log_part 0;
            if Py.mem l0 AccessLog.requests then
              let st := request_append (Some l0) st in
              OK (url_append
                    (Some (Py.join " " (Py.slice log_part 1 (-1)))) st)
            else
              let st := request_append None st in
              OK (url_append (Some (Py.join " " log_part)) st)
          else
            let st := request_append None st in
            OK (url_append None st)
        else
          let st := request_append None st in
          OK (url_append None st));
  let st := print (PrintRequest (request st)) st in
  OK (print (PrintUrl (url st)) st).

Definition parse_log_file (log_file_path : list string)
    (output_csv_path : string) : result state :=
  for_each line_body log_file_path start.

End TestScript.

(** * Properties *)

(** ** Splitting on one character *)

Section SplitChar.

Variable c : ascii.

Local Abbreviation sep := (String c "").

Lemma split_nil : Py.split sep "" = [""].
Proof. reflexivity. Qed.

Lemma split_cons_sep (s : string) :
  Py.split sep (String c s) = "" :: Py.split sep s.
Proof.
  unfold Py.split; simpl.
  destruct (ascii_dec c c) as [_|Hne]; [|congruence].
  now destruct s.
Qed.

Lemma split_cons_other (d : ascii) (s : string) :
  c <> d ->
  Py.split sep (String d s) = Py.cons_head d (Py.split sep s).
Proof.
  intros Hcd. unfold Py.split; simpl.
  now destruct (ascii_dec c d).
Qed.

Lemma split_not_nil (s : string) : Py.split sep s <> [].
Proof.
  induction s as [|d s IH]; [easy|].
  destruct (ascii_dec c d) as [<-|Hcd].
  - now rewrite split_cons_sep.
  - rewrite split_cons_other by assumption.
    now destruct (Py.split sep s).
Qed.

Lemma split_absent (s : string) :
  Py.contains c s = false -> Py.split sep s = [s].
Proof.
  induction s as [|d s IH]; [easy|].
  intros H. unfold Py.contains in H; simpl in H.
  apply orb_false_elim in H as [Hd Hs].
  apply Ascii.eqb_neq in Hd.
  rewrite split_cons_other by assumption.
  now rewrite IH.
Qed.

Lemma split_app (a b : string) :
  Py.contains c a = false ->
  Py.split sep (a +:+ String c b) = a :: Py.split sep b.
Proof.
  induction a as [|d a IH].
  - intros _. apply split_cons_sep.
  - intros H. unfold Py.contains in H; simpl in H.
    apply orb_false_elim in H as [Hd Ha].
    apply Ascii.eqb_neq in Hd.
    change (String d a +:+ String c b) with (String d (a +:+ String c b)).
    rewrite split_cons_other by assumption.
    now rewrite IH.
Qed.

(** A string without the separator is the only one left whole. *)
Lemma split_length_le_1 (s : string) :
  (length (Py.split sep s) <= 1)%nat <-> Py.contains c s = false.
Proof.
  split.
  - induction s as [|d s IH]; [easy|].
    destruct (ascii_dec c d) as [<-|Hcd].
    + rewrite split_cons_sep; simpl. intros Hlen.
      pose proof (split_not_nil s).
      destruct (Py.split sep s); [easy | simpl in Hlen; lia].
    + rewrite split_cons_other by assumption. intros Hlen.
      unfold Py.contains; simpl.
      apply Ascii.eqb_neq in Hcd. rewrite Hcd; simpl.
      apply IH.
      destruct (Py.split sep s) as [|x [|y l]]; simpl in *; lia.
  - intros H. now rewrite split_absent.
Qed.

Lemma split_join (l : list string) :
  l <> [] ->
  Forall (fun a => Py.contains c a = false) l ->
  Py.split sep (Py.join sep l) = l.
Proof.
  induction l as [|a l IH]; [easy|].
  intros _ Hall. inversion Hall as [|? ? Ha Hl]; subst.
  destruct l as [|b l].
  - simpl. now apply split_absent.
  - change (Py.join sep (a :: b :: l))
      with (a +:+ String c (Py.join sep (b :: l))).
    rewrite split_app by assumption.
    now rewrite IH.
Qed.

End SplitChar.

Lemma contains_app (c : ascii) (a b : string) :
  Py.contains c (a +:+ b) = Py.contains c a || Py.contains c b.
Proof.
  unfold Py.contains.
  induction a as [|d a IH]; simpl; [reflexivity|].
  now rewrite IH, orb_assoc.
Qed.

Lemma contains_join (c : ascii) (sep : string) (l : list string) :
  Py.contains c sep = false ->
  Forall (fun a => Py.contains c a = false) l ->
  Py.contains c (Py.join sep l) = false.
Proof.
  intros Hsep. induction 1 as [|a l Ha Hl IH]; [reflexivity|].
  destruct l as [|b l]; [exact Ha|].
  change (Py.join sep (a :: b :: l))
    with (a +:+ (sep +:+ Py.join sep (b :: l))).
  now rewrite !contains_app, Ha, Hsep, IH.
Qed.

(** [l[1:-1]] is what lies strictly between the first and the last. *)
Lemma slice_inner {A : Type} (x : A) (mid : list A) (y : A) :
  Py.slice (x :: mid ++ [y]) 1 (-1) = mid.
Proof.
  unfold Py.slice, Py.norm_bound. simpl length. rewrite length_app. simpl.
  assert (Ha : Z.to_nat ((1 `max` 0) `min` Z.of_nat (S (length mid + 1)))
               = 1%nat) by lia.
  assert (Hb : Z.to_nat (((-1 + Z.of_nat (S (length mid + 1))) `max` 0)
                         `min` Z.of_nat (S (length mid + 1)))
               = S (length mid)) by lia.
  rewrite Ha, Hb. simpl. rewrite Nat.sub_0_r. apply take_app_length.
Qed.

(** ** The result monad and indexing *)

Lemma index_OK {A : Type} (l : list A) (i : nat) (x : A) :
  Py.index l i = OK x <-> l !! i = Some x.
Proof. unfold Py.index. destruct (l !! i); split; congruence. Qed.

Lemma index_Raise {A : Type} (l : list A) (i : nat) (e : exn) :
  Py.index l i = Raise e <-> e = IndexError /\ (length l <= i)%nat.
Proof.
  unfold Py.index. destruct (l !! i) eqn:E.
  - apply lookup_lt_Some in E. split; [congruence | lia].
  - apply lookup_ge_None in E. split; [intros [= <-] | intros [-> _]]; auto.
Qed.

Lemma for_each_app {A S : Type} (body : A -> S -> result S)
    (xs ys : list A) (st : S) :
  for_each body (xs ++ ys) st = (st' ← for_each body xs st; for_each body ys st').
Proof.
  revert st. induction xs as [|x xs IH]; intros st; [reflexivity|].
  simpl. destruct (body x st) as [st1|e]; simpl; [apply IH | reflexivity].
Qed.

(** A loop whose body can only fail with [e] fails with [e] as soon as one
    element makes the body fail. *)
Lemma for_each_Raise {A S : Type} (body : A -> S -> result S) (e : exn)
    (xs : list A) (x : A) :
  (forall y st e', body y st = Raise e' -> e' = e) ->
  x ∈ xs ->
  (forall st, body x st = Raise e) ->
  forall st, for_each body xs st = Raise e.
Proof.
  intros Honly Hin Hx. induction xs as [|y xs IH]; intros st.
  - inversion Hin.
  - simpl. destruct (body y st) as [st1|e'] eqn:E; simpl.
    + apply elem_of_cons in Hin as [->|Hin]; [rewrite Hx in E; discriminate|].
      now apply IH.
    + f_equal. eauto.
Qed.

(** ** The access-log tokenizer *)

Module AccessFacts.
Import AccessLog.

Ltac case_index :=
  repeat match goal with
  | |- context [Py.index ?l ?i] =>
      let E := fresh "E" in destruct (Py.index l i) eqn:E; simpl
  | |- context [if ?b then _ else _] => destruct b; simpl
  end.

Section WithLibrary.

Context `{pandas : Pandas.Library}.

(** The body of the loop adds the entries of the line to the columns it
    is given: it is the body run from empty columns, appended. *)
Lemma line_body_app (line : string) (st : columns) :
  line_body line st = (s ← line_body line start; OK (app st s)).
Proof.
  unfold line_body, request_step, fields_step.
  case_index; try reflexivity;
    unfold app, status_code_append, datetime_append, ip_append,
      user_agent_append, url_append, request_append, errors_add; simpl;
    do 2 f_equal; lia.
Qed.

Lemma line_body_only_IndexError (line : string) (st : columns) (e : exn) :
  line_body line st = Raise e -> e = IndexError.
Proof.
  unfold line_body, request_step, fields_step.
  case_index; intros [= <-];
    repeat match goal with
    | H : Py.index _ _ = Raise _ |- _ => apply index_Raise in H as [-> _]
    end; reflexivity.
Qed.

(** Lines 54-85 never raise: they add one entry to [request] and to
    [url], and the units of the line to the counter. *)
Lemma request_step_OK (parts : list string) (st : columns) :
  exists r u,
    request_step parts st
    = OK (mk_columns (ip st) (datetime st) (request st ++ [r])
            (url st ++ [u]) (status_code st) (user_agent st)
            (errors st + units_of_parts parts)).
Proof.
  unfold request_step, units_of_parts.
  destruct parts as [|p0 [|p1 rest]]; simpl; try (do 2 eexists; reflexivity).
  destruct (Py.split " " p1) as [|l0 [|l1 toks]] eqn:E; simpl;
    try (do 2 eexists; reflexivity).
  destruct (Py.mem l0 requests); do 2 eexists;
    unfold url_append, request_append, errors_add; simpl;
    do 2 f_equal; lia.
Qed.

(** What a line that gets through the body has, and what it adds. *)
Lemma line_body_OK (line : string) (st st' : columns) :
  line_body line st = OK st' ->
  exists p0 i0 d3 p2 s1 r u,
    Py.split QUOTE line !! 0%nat = Some p0 /\
    Py.split " " p0 !! 0%nat = Some i0 /\
    Py.split " " p0 !! 3%nat = Some d3 /\
    Py.split QUOTE line !! 2%nat = Some p2 /\
    Py.split " " p2 !! 1%nat = Some s1 /\
    st' = app st (mk_columns [i0] [d3] [r] [u] [s1]
                    [Py.slice_from (Py.split QUOTE line) 5]
                    (malformed_units line)).
Proof.
  unfold line_body.
  destruct (request_step_OK (Py.split QUOTE line) st) as (r & u & ->).
  unfold fields_step; simpl.
  case_index; intros [= <-];
    repeat match goal with
    | H : Py.index _ _ = OK _ |- _ => apply index_OK in H
    end.
  exists a1, a3, a2, a, a0, r, u. repeat split; assumption.
Qed.

Lemma same_length_iff (st : columns) :
  same_length st = true <->
  length (datetime st) = length (ip st) /\
  length (request st) = length (ip st) /\
  length (url st) = length (ip st) /\
  length (status_code st) = length (ip st) /\
  length (user_agent st) = length (ip st).
Proof.
  unfold same_length. rewrite !andb_true_iff, !Nat.eqb_eq. tauto.
Qed.

Lemma same_length_app (a b : columns) :
  same_length a = true -> same_length b = true ->
  same_length (app a b) = true.
Proof.
  rewrite !same_length_iff. unfold app; simpl.
  rewrite !length_app. lia.
Qed.

Lemma frame_app (a b : columns) :
  same_length a = true -> frame (app a b) = frame a ++ frame b.
Proof.
  rewrite same_length_iff. intros (Hd & Hr & Hu & Hs & Ha).
  unfold frame, ap, app, Pandas.to_datetime; simpl.
  rewrite fmap_app.
  rewrite !zip_with_app; try reflexivity;
    rewrite ?length_zip_with, ?length_fmap; lia.
Qed.

(** The data frame of a one-line file. *)
Lemma parse_lines_single (line : string) (r : row) (u : Z) :
  AccessLog.parse_lines [line] = OK ([r], u) <->
  exists s, line_body line start = OK s /\ frame s = [r] /\ errors s = u.
Proof.
  unfold AccessLog.parse_lines; simpl.
  destruct (line_body line start) as [s|e] eqn:E; simpl.
  - destruct (line_body_OK _ _ _ E)
      as (p0 & i0 & d3 & p2 & s1 & r' & u' & _ & _ & _ & _ & _ & ->).
    simpl. split.
    + intros [= <- <-]. eexists; repeat split.
    + intros (s & [= <-] & Hf & Hu). simpl in *. congruence.
  - split; [discriminate | intros (s & [=] & _)].
Qed.

(** The loop keeps the columns aligned, adds the row of each line in the
    order of the lines, and counts the units of each line. *)
Lemma for_each_rows (lines : list string) :
  forall st st',
    same_length st = true ->
    for_each line_body lines st = OK st' ->
    same_length st' = true /\
    errors st' = errors st + total_units lines /\
    exists df, frame st' = frame st ++ df /\ Forall2 row_of_line lines df.
Proof.
  induction lines as [|line lines IH]; intros st st' Hst; simpl.
  - intros [= <-]. repeat split; [assumption | unfold total_units; simpl; lia |].
    exists []. split; [now rewrite app_nil_r | constructor].
  - rewrite line_body_app.
    destruct (line_body line start) as [s|e] eqn:E; simpl; [|discriminate].
    intros Hrest.
    destruct (line_body_OK _ _ _ E)
      as (p0 & i0 & d3 & p2 & s1 & r & u & _ & _ & _ & _ & _ & Hs).
    simpl in Hs.
    assert (Hsl : same_length s = true) by now subst s.
    destruct (IH _ _ (same_length_app _ _ Hst Hsl) Hrest)
      as (Hst' & Herr & df & Hdf & Hall).
    split; [assumption|]. split.
    + rewrite Herr. unfold total_units. rewrite fmap_cons. subst s; simpl. lia.
    + rewrite frame_app in Hdf by assumption.
      exists (frame s ++ df). split; [now rewrite Hdf, app_assoc|].
      subst s. simpl. constructor; [|assumption].
      eexists. apply parse_lines_single. eexists.
      split; [exact E|]. split; reflexivity.
Qed.

(** When the function returns, its data frame has one row per line, the
    rows follow the lines, and the count is the sum of the lines' units. *)
Lemma parse_lines_OK (lines : list string) (df : list row) (e : Z) :
  AccessLog.parse_lines lines = OK (df, e) ->
  Forall2 row_of_line lines df /\ length df = length lines
  /\ e = total_units lines.
Proof.
  unfold AccessLog.parse_lines.
  destruct (for_each line_body lines start) as [st|x] eqn:E; simpl;
    [|discriminate].
  destruct (for_each_rows lines start st eq_refl E)
    as (Hsl & Herr & df' & Hdf & Hall).
  unfold DataFrame. rewrite Hsl. simpl. intros [= <- <-].
  simpl in Hdf. rewrite Hdf. split; [assumption|]. split.
  - symmetry. eapply Forall2_length, Hall.
  - rewrite Herr. simpl. lia.
Qed.

(** The conversion of the date column and [pd.DataFrame] cannot fail: once
    the loop is through, the function returns. *)
Lemma parse_lines_returns (lines : list string) (st : columns) :
  for_each line_body lines start = OK st ->
  AccessLog.parse_lines lines = OK (frame st, errors st).
Proof.
  intros E. unfold AccessLog.parse_lines. rewrite E; simpl.
  destruct (for_each_rows lines start st eq_refl E) as (Hsl & _).
  unfold DataFrame. now rewrite Hsl.
Qed.


(** A line without a quote never gets through the body: line 97 reads
    the third quote-delimited segment of every line. *)
Lemma line_body_no_quote (line : string) (st : columns) :
  (length (Py.split QUOTE line) <= 1)%nat ->
  line_body line st = Raise IndexError.
Proof.
  intros Hlen. destruct (line_body line st) as [st'|e] eqn:E.
  - destruct (line_body_OK _ _ _ E)
      as (p0 & i0 & d3 & p2 & s1 & r & u & _ & _ & _ & H2 & _).
    apply lookup_lt_Some in H2. lia.
  - f_equal. eapply line_body_only_IndexError, E.
Qed.

(** The entries of lines 54-85 for a line whose first quoted segment has
    two or more blank-separated tokens [l0 :: mid ++ [lst]]: what the
    lines append, what the columns hold whenever the line gets through the
    body, and what the row of the line holds. *)
Lemma request_method_and_url
    (line : string) (st : columns) (p1 l0 : string) (mid : list string)
    (lst : string) :
  Py.split QUOTE line !! 1%nat = Some p1 ->
  Py.split " " p1 = l0 :: mid ++ [lst] ->
  let known := Py.mem l0 requests in
  let method := if known then Some l0 else None in
  let target :=
    Some (Py.join " " (if known then mid else l0 :: mid ++ [lst])) in
  let units := if known then 0 else 1 in
  (exists st1,
      request_step (Py.split QUOTE line) st = OK st1 /\
      request st1 = request st ++ [method] /\
      url st1 = url st ++ [target] /\
      errors st1 = errors st + units) /\
  (forall st',
      line_body line st = OK st' ->
      request st' = request st ++ [method] /\
      url st' = url st ++ [target] /\
      errors st' = errors st + units) /\
  (forall r u,
      AccessLog.parse_lines [line] = OK ([r], u) ->
      row_request r = method /\ row_url r = target /\ u = units).
Proof.
  intros Hp1 Hsplit known method target units.
  assert (Hstep : forall st0,
    request_step (Py.split QUOTE line) st0
    = OK (mk_columns (ip st0) (datetime st0) (request st0 ++ [method])
            (url st0 ++ [target]) (status_code st0) (user_agent st0)
            (errors st0 + units))).
  { intros st0. unfold request_step.
    assert (Hlen : (1 <? length (Py.split QUOTE line))%nat = true)
      by (apply Nat.ltb_lt; apply lookup_lt_Some in Hp1; lia).
    rewrite Hlen. rewrite (proj2 (index_OK _ _ _) Hp1). simpl.
    rewrite Hsplit. simpl. rewrite length_app. simpl.
    replace (1 <? S (length mid + 1))%nat with true
      by (symmetry; apply Nat.ltb_lt; lia).
    subst method target units known.
    destruct (Py.mem l0 requests); simpl.
    - rewrite slice_inner.
      unfold url_append, request_append; simpl.
      do 2 f_equal. lia.
    - reflexivity. }
  assert (Hbody : forall st0 st',
    line_body line st0 = OK st' ->
    request st' = request st0 ++ [method] /\
    url st' = url st0 ++ [target] /\
    errors st' = errors st0 + units).
  { intros st0 st'. unfold line_body. rewrite Hstep. simpl.
    unfold fields_step. case_index; intros [= <-]; simpl; auto. }
  split; [|split].
  - eexists. split; [apply Hstep|]. simpl. auto.
  - apply Hbody.
  - intros r u [s (Hs & Hf & Hu)]%parse_lines_single.
    destruct (Hbody _ _ Hs) as (Hr & Hurl & He). simpl in *.
    destruct (line_body_OK _ _ _ Hs)
      as (p0 & i0 & d3 & p2 & s1 & r' & u' & _ & _ & _ & _ & _ & ->).
    simpl in *. injection Hr as ->. injection Hurl as ->.
    injection Hf as <-. simpl. repeat split. lia.
Qed.

(** C5. For a line without a quote, lines 80-85 record no method and no
    URL and count two units, and then line 97 raises: the line yields no
    record, and the count is lost with the exception. *)
Theorem no_quote_line_counts_then_raises (line : string) (st : columns) :
  Py.contains DQUOTE line = false ->
  (exists st1,
      request_step (Py.split QUOTE line) st = OK st1 /\
      request st1 = request st ++ [None] /\
      url st1 = url st ++ [None] /\
      errors st1 = errors st + 2) /\
  line_body line st = Raise IndexError /\
  AccessLog.parse_lines [line] = Raise IndexError.
Proof.
  intros Hq. apply split_length_le_1 in Hq as Hlen. split; [|split].
  - unfold QUOTE. rewrite (split_absent _ _ Hq).
    eexists. split; [reflexivity|]. simpl. auto.
  - now apply line_body_no_quote.
  - unfold AccessLog.parse_lines; simpl.
    now rewrite line_body_no_quote.
Qed.

(** The other half of the rule: a first quoted segment of one token
    records no method and no URL and counts two units. *)
Lemma single_token_request (line : string) (st : columns) (p1 t : string) :
  Py.split QUOTE line !! 1%nat = Some p1 ->
  Py.split " " p1 = [t] ->
  (exists st1,
      request_step (Py.split QUOTE line) st = OK st1 /\
      request st1 = request st ++ [None] /\
      url st1 = url st ++ [None] /\
      errors st1 = errors st + 2) /\
  (forall r u,
      AccessLog.parse_lines [line] = OK ([r], u) ->
      row_request r = None /\ row_url r = None /\ u = 2).
Proof.
  intros Hp1 Hsplit.
  assert (Hstep : forall st0,
    request_step (Py.split QUOTE line) st0
    = OK (errors_add 2 (url_append None (request_append None st0)))).
  { intros st0. unfold request_step.
    assert (Hlen : (1 <? length (Py.split QUOTE line))%nat = true)
      by (apply Nat.ltb_lt; apply lookup_lt_Some in Hp1; lia).
    rewrite Hlen, (proj2 (index_OK _ _ _) Hp1). simpl.
    now rewrite Hsplit. }
  split.
  - eexists. split; [apply Hstep|]. simpl. auto.
  - intros r u [s (Hs & Hf & Hu)]%parse_lines_single.
    revert Hs. unfold line_body. rewrite Hstep. simpl.
    unfold fields_step. case_index; intros [= <-].
    simpl in *. injection Hf as <-. simpl. auto.
Qed.

(** The sample line of the specification is of the shape. *)
Example shaped_line_sample :
  shaped_line "x" "/path" "404" ""
  = "x - - [29/Sep/2024:00:24:27 +0200] " +:+ QUOTE +:+ "GET /path HTTP/1.1"
    +:+ QUOTE +:+ " 404 162 " +:+ QUOTE +:+ "-" +:+ QUOTE +:+ " " +:+ QUOTE
    +:+ "Go-http-client/1.1" +:+ QUOTE.
Proof. reflexivity. Qed.

(** C7. A well-formed line of the shape of the sample gives a record with
    the method GET, the path as URL, the status code (second blank-separated
    token of the third quote-delimited segment), the client address (first
    token before the first quote), a timestamp that is not null, and as
    user agent the quote-delimited segments from the sixth onward; it
    counts no malformed unit. *)
Theorem well_formed_line (x path status eol : string) :
  token x -> token path -> token status ->
  Py.contains DQUOTE eol = false ->
  let line := shaped_line x path status eol in
  let parts := Py.split QUOTE line in
  AccessLog.parse_lines [line]
  = OK ([mk_row x (Some (Pandas.mk_datetime 2024 9 29 0 24 27 0))
           (Some "GET") (Some path) status (Py.slice_from parts 5)], 0)
  /\ Py.slice_from parts 5 = ["Go-http-client/1.1"; eol]
  /\ (parts !! 2%nat ≫= fun p2 => Py.split " " p2 !! 1%nat) = Some status
  /\ (parts !! 0%nat ≫= fun p0 => Py.split " " p0 !! 0%nat) = Some x.
Proof.
  intros [Hx Hxq] [Hp Hpq] [Hs Hsq] He line parts.
  assert (H0 : Py.split " "
                 (Py.join " " [x; "-"; "-"; "[29/Sep/2024:00:24:27";
                               "+0200]"; ""])
               = [x; "-"; "-"; "[29/Sep/2024:00:24:27"; "+0200]"; ""])
    by (apply split_join; [discriminate | repeat constructor; assumption]).
  assert (H1 : Py.split " " (Py.join " " ["GET"; path; "HTTP/1.1"])
               = ["GET"; path; "HTTP/1.1"])
    by (apply split_join; [discriminate | repeat constructor; assumption]).
  assert (H2 : Py.split " " (Py.join " " [""; status; "162"; ""])
               = [""; status; "162"; ""])
    by (apply split_join; [discriminate | repeat constructor; assumption]).
  subst parts.
  remember (Py.join " " [x; "-"; "-"; "[29/Sep/2024:00:24:27"; "+0200]"; ""])
    as p0 eqn:Ep0.
  remember (Py.join " " ["GET"; path; "HTTP/1.1"]) as p1 eqn:Ep1.
  remember (Py.join " " [""; status; "162"; ""]) as p2 eqn:Ep2.
  assert (Hline : Py.split QUOTE line
                  = [p0; p1; p2; "-"; " "; "Go-http-client/1.1"; eol]).
  { subst line p0 p1 p2. unfold shaped_line, QUOTE.
    apply split_join; [discriminate|].
    repeat constructor; try assumption;
      apply contains_join; try reflexivity;
      repeat constructor; assumption. }
  unfold AccessLog.parse_lines, for_each, line_body.
  rewrite Hline.
  split; [|split; [reflexivity | split]].
  - unfold request_step, fields_step, Py.index. simpl.
    rewrite H1. simpl. rewrite H0. simpl. rewrite H2. reflexivity.
  - simpl. now rewrite H2.
  - simpl. now rewrite H0.
Qed.

End WithLibrary.

Section AccessSamples.

#[local] Existing Instance Pandas.plain.

Lemma no_quote_line_counts_then_raises_witness :
  AccessLog.parse_lines ["no quoted segment here"] = Raise IndexError.
Proof.
  exact (proj2 (proj2 (no_quote_line_counts_then_raises
                         "no quoted segment here" start eq_refl))).
Defined.

Lemma well_formed_line_witness :
  AccessLog.parse_lines [shaped_line "x" "/path" "404" ""]
  = OK ([mk_row "x" (Some (Pandas.mk_datetime 2024 9 29 0 24 27 0))
           (Some "GET") (Some "/path") "404" ["Go-http-client/1.1"; ""]], 0).
Proof.
  exact (proj1 (well_formed_line "x" "/path" "404" ""
                  (conj eq_refl eq_refl) (conj eq_refl eq_refl)
                  (conj eq_refl eq_refl) eq_refl)).
Defined.

End AccessSamples.

End AccessFacts.

(** ** The error-log tokenizer *)

Module ErrorFacts.
Import ErrorLog.

#[local] Arguments Py.split : simpl never.
#[local] Arguments Py.split_max : simpl never.
#[local] Arguments Py.strip : simpl never.
#[local] Arguments Py.strip_chars : simpl never.

(** Indexing a list of strings, by cases on whether the index is in. *)
Lemma index_field (l : list string) (i : nat) :
  Py.index l i = if has l i then OK (field l i) else Raise IndexError.
Proof.
  unfold Py.index, has, field.
  destruct (Nat.ltb_spec i (length l)) as [Hlt|Hge].
  - destruct (lookup_lt_is_Some_2 l i Hlt) as [x ->]. reflexivity.
  - now rewrite (lookup_ge_None_2 l i Hge).
Qed.

(** One statement of the body: the index at its head is in or not. *)
Ltac index_step :=
  match goal with
  | |- mbind _ (Py.index ?l ?i) = _ =>
      let E := fresh "E" in
      rewrite (index_field l i); destruct (has l i) eqn:E; simpl
  | |- mbind _ (mbind _ (Py.index ?l ?i)) = _ =>
      let E := fresh "E" in
      rewrite (index_field l i); destruct (has l i) eqn:E; simpl
  end.

Ltac has_lengths :=
  unfold has in *;
  repeat match goal with
  | H : (_ <? _)%nat = true |- _ => apply Nat.ltb_lt in H
  | H : (_ <? _)%nat = false |- _ => apply Nat.ltb_ge in H
  end.

Section WithLibrary.

Context `{pandas : Pandas.Library}.

(** The body gets through exactly the lines that fit the grammar, and adds
    the entries found by position. *)
Lemma line_body_fits (line : string) (st : columns) :
  line_body line st
  = if fits line then OK (app st (extract line)) else Raise IndexError.
Proof.
  unfold line_body, after_colon.
  repeat index_step.
  all: destruct (fits line) eqn:Hfit; try reflexivity; exfalso;
       unfold fits in Hfit.
  (* every lookup succeeded, yet the line does not fit *)
  all: try (repeat match goal with
                   | H : has ?l ?i = true |- _ =>
                       match type of Hfit with
                       | context [has l i] => rewrite H in Hfit
                       end
                   end;
            discriminate).
  (* a lookup failed, yet the line fits *)
  all: repeat (apply andb_prop in Hfit as [Hfit ?]).
  all: has_lengths; lia.
Qed.

Lemma error_line_body_app (line : string) (st : columns) :
  line_body line st = (s ← line_body line start; OK (app st s)).
Proof.
  rewrite !line_body_fits. destruct (fits line); reflexivity.
Qed.

Lemma error_line_body_only_IndexError (line : string) (st : columns) (e : exn) :
  line_body line st = Raise e -> e = IndexError.
Proof.
  rewrite line_body_fits. destruct (fits line); congruence.
Qed.

Lemma error_same_length_iff (st : columns) :
  same_length st = true <->
  length (error_level st) = length (date_time st) /\
  length (process_id st) = length (date_time st) /\
  length (message st) = length (date_time st) /\
  length (client_ip st) = length (date_time st) /\
  length (server st) = length (date_time st) /\
  length (request st) = length (date_time st) /\
  length (host st) = length (date_time st).
Proof.
  unfold same_length. rewrite !andb_true_iff, !Nat.eqb_eq. tauto.
Qed.

Lemma error_same_length_app (a b : columns) :
  same_length a = true -> same_length b = true ->
  same_length (app a b) = true.
Proof.
  rewrite !error_same_length_iff. unfold app; simpl.
  rewrite !length_app. lia.
Qed.

Lemma error_frame_app (a b : columns) :
  same_length a = true -> frame (app a b) = frame a ++ frame b.
Proof.
  rewrite error_same_length_iff. intros (H1 & H2 & H3 & H4 & H5 & H6 & H7).
  unfold frame, ap, app, Pandas.to_datetime; simpl.
  rewrite fmap_app.
  rewrite !zip_with_app; try reflexivity;
    rewrite ?length_zip_with, ?length_fmap; lia.
Qed.

(** The data frame of a one-line file. *)
Lemma error_parse_lines_single (line : string) :
  ErrorLog.parse_lines [line]
  = if fits line then OK (frame (extract line)) else Raise IndexError.
Proof.
  unfold ErrorLog.parse_lines; simpl. rewrite line_body_fits.
  destruct (fits line); reflexivity.
Qed.

Lemma row_of_line_inv (line : string) (r : row) :
  row_of_line line r -> fits line = true /\ frame (extract line) = [r].
Proof.
  unfold row_of_line. rewrite error_parse_lines_single.
  destruct (fits line); [|discriminate].
  intros H. split; [reflexivity | congruence].
Qed.

Lemma error_for_each_rows (lines : list string) :
  forall st st',
    same_length st = true ->
    for_each line_body lines st = OK st' ->
    same_length st' = true /\
    exists df, frame st' = frame st ++ df /\ Forall2 row_of_line lines df.
Proof.
  induction lines as [|line lines IH]; intros st st' Hst; simpl.
  - intros [= <-]. split; [assumption|].
    exists []. split; [now rewrite app_nil_r | constructor].
  - rewrite line_body_fits.
    destruct (fits line) eqn:Hfit; simpl; [|discriminate].
    intros Hrest.
    destruct (IH _ _ (error_same_length_app st (extract line) Hst eq_refl) Hrest)
      as (Hst' & df & Hdf & Hall).
    split; [assumption|].
    rewrite error_frame_app in Hdf by assumption.
    exists (frame (extract line) ++ df).
    split; [now rewrite Hdf, app_assoc|].
    simpl. constructor; [|assumption].
    unfold row_of_line. rewrite error_parse_lines_single, Hfit. reflexivity.
Qed.

(** When the function returns, its data frame has one row per line and the
    rows follow the lines. *)
Lemma error_parse_lines_OK (lines : list string) (df : list row) :
  ErrorLog.parse_lines lines = OK df ->
  Forall2 row_of_line lines df /\ length df = length lines.
Proof.
  unfold ErrorLog.parse_lines.
  destruct (for_each line_body lines start) as [st|x] eqn:E; simpl;
    [|discriminate].
  destruct (error_for_each_rows lines start st eq_refl E) as (Hsl & df' & Hdf & Hall).
  unfold DataFrame. rewrite Hsl. intros [= <-].
  simpl in Hdf. rewrite Hdf. split; [assumption|].
  symmetry. eapply Forall2_length, Hall.
Qed.



(** A line that does not fit the grammar aborts the parse of its file. *)
Lemma parse_lines_unfit (before after : list string) (line : string) :
  fits line = false ->
  ErrorLog.parse_lines (before ++ line :: after) = Raise IndexError.
Proof.
  intros Hfit. unfold ErrorLog.parse_lines.
  rewrite (for_each_Raise line_body IndexError (before ++ line :: after) line).
  - reflexivity.
  - intros y st e. apply error_line_body_only_IndexError.
  - apply elem_of_app. right. apply elem_of_cons. now left.
  - intros st. now rewrite line_body_fits, Hfit.
Qed.

(** C2, as amended.  A line that fits the grammar gets through the body
    of the loop, which adds the time stamp, the error level, the process
    id, the message, the client address, the server, the request and the
    host found by the fixed positional splits; a one-line file of it gives
    one row.  A line that does not fit, in particular one with fewer than
    six fields, raises IndexError, and so does the parse of any file that
    contains it. *)
Theorem positional_extraction (line : string) (st : columns) :
  (fits line = true ->
     line_body line st = OK (app st (extract line)) /\
     ErrorLog.parse_lines [line] = OK (frame (extract line)) /\
     length (frame (extract line)) = 1%nat) /\
  (fits line = false ->
     line_body line st = Raise IndexError /\
     forall before after,
       ErrorLog.parse_lines (before ++ line :: after) = Raise IndexError) /\
  ((length (Py.split ", " line) < 6)%nat -> fits line = false).
Proof.
  split; [|split].
  - intros Hfit. rewrite line_body_fits, error_parse_lines_single, Hfit. auto.
  - intros Hfit. split; [now rewrite line_body_fits, Hfit|].
    intros before after. now apply parse_lines_unfit.
  - intros Hlen. unfold fits, has.
    destruct (Nat.ltb_spec 5 (length (Py.split ", " line))); [lia|reflexivity].
Qed.

End WithLibrary.

Section ErrorSamples.

#[local] Existing Instance Pandas.plain.

Lemma positional_extraction_witness :
  ErrorLog.parse_lines [sample_line]
  = OK [mk_row (Some (Pandas.mk_datetime 2024 9 29 10 15 3 0)) "error" "5678:"
          "timed out" "1.2.3.4" "example.com" "GET / HTTP/1.1"
          "example.com"]
  /\ ErrorLog.parse_lines ["a line"; "that is no error line"]
     = Raise IndexError.
Proof.
  split.
  - exact (proj1 (proj2 (proj1 (positional_extraction sample_line start)
                           eq_refl))).
  - exact (proj2 (proj1 (proj2 (positional_extraction "a line" start))
                    eq_refl) [] ["that is no error line"]).
Defined.

(** The claim as the specification states it fails: an error line of nginx
    with fewer than six fields makes the tokenizer raise. *)
Lemma error_line_with_five_fields_raises :
  ErrorLog.parse_lines
    ["2024/09/29 10:15:03 [error] 1234#1234: *1 open() failed (2: No such file or directory), client: 1.2.3.4, server: example.com, request: GET /x HTTP/1.1, host: example.com"]
  = Raise IndexError.
Proof. vm_compute. reflexivity. Qed.

End ErrorSamples.

End ErrorFacts.

(** ** The aggregation pipeline *)

Section PipelineFacts.

Variable csv_text : table -> string.

Context `{pandas : Pandas.Library} `{disk : Writable}.

Ltac run_M :=
  unfold parse_access_log_file, parse_error_log, open_lines, lift,
    logger_info, to_csv, glob, mbind, M_bind, mret, M_ret; simpl.

(** The function on a path: the file is opened, its lines are tokenized,
    and the count is logged when the tokenizer returns. *)
Lemma parse_access_log_file_eq (path : string) (w : world) :
  parse_access_log_file csv_text path w
  = match file_lines csv_text (files w !! path) with
    | Raise e => (w, Raise e)
    | OK lines =>
        match AccessLog.parse_lines lines with
        | Raise e => (w, Raise e)
        | OK (df, errors) =>
            (mk_world (files w) (log w ++ [FileAdded path errors]), OK df)
        end
    end.
Proof.
  run_M. destruct (file_lines csv_text (files w !! path)) as [lines|e];
    [|reflexivity].
  destruct (AccessLog.parse_lines lines) as [[df errors]|e]; reflexivity.
Qed.

Lemma parse_error_log_eq (path : string) (w : world) :
  parse_error_log csv_text path w
  = match file_lines csv_text (files w !! path) with
    | Raise e => (w, Raise e)
    | OK lines =>
        match ErrorLog.parse_lines lines with
        | Raise e => (w, Raise e)
        | OK df => (mk_world (files w) (log w ++ [ErrorFileAdded path]), OK df)
        end
    end.
Proof.
  run_M. destruct (file_lines csv_text (files w !! path)) as [lines|e];
    [|reflexivity].
  destruct (ErrorLog.parse_lines lines) as [df|e]; reflexivity.
Qed.

(** One turn of each loop. *)
Lemma access_turn (log_file : string) (acc : list AccessLog.row) (w : world) :
  (_ ← logger_info (ParsingAccessLog log_file);
   df ← parse_access_log_file csv_text log_file;
   mret (concat acc df)) w
  = match file_lines csv_text (files w !! log_file) with
    | Raise e => (mk_world (files w) (log w ++ [ParsingAccessLog log_file]),
                  Raise e)
    | OK lines =>
        match AccessLog.parse_lines lines with
        | Raise e =>
            (mk_world (files w) (log w ++ [ParsingAccessLog log_file]),
             Raise e)
        | OK (df, errors) =>
            (mk_world (files w)
               ((log w ++ [ParsingAccessLog log_file])
                ++ [FileAdded log_file errors]),
             OK (acc ++ df))
        end
    end.
Proof.
  unfold mbind at 1, M_bind at 1, logger_info at 1.
  unfold mbind at 1, M_bind at 1. rewrite parse_access_log_file_eq. simpl.
  destruct (file_lines csv_text (files w !! log_file)) as [lines|e];
    [|reflexivity].
  destruct (AccessLog.parse_lines lines) as [[df errors]|e]; reflexivity.
Qed.

Lemma error_turn (log_file : string) (acc : list ErrorLog.row) (w : world) :
  (_ ← logger_info (ProcessingErrorLog log_file);
   df ← parse_error_log csv_text log_file;
   mret (concat acc df)) w
  = match file_lines csv_text (files w !! log_file) with
    | Raise e => (mk_world (files w) (log w ++ [ProcessingErrorLog log_file]),
                  Raise e)
    | OK lines =>
        match ErrorLog.parse_lines lines with
        | Raise e =>
            (mk_world (files w) (log w ++ [ProcessingErrorLog log_file]),
             Raise e)
        | OK df =>
            (mk_world (files w)
               ((log w ++ [ProcessingErrorLog log_file])
                ++ [ErrorFileAdded log_file]),
             OK (acc ++ df))
        end
    end.
Proof.
  unfold mbind at 1, M_bind at 1, logger_info at 1.
  unfold mbind at 1, M_bind at 1. rewrite parse_error_log_eq. simpl.
  destruct (file_lines csv_text (files w !! log_file)) as [lines|e];
    [|reflexivity].
  destruct (ErrorLog.parse_lines lines) as [df|e]; reflexivity.
Qed.

(** A loop whose turns keep the files keeps the files. *)
Lemma for_each_M_files {A S : Type} (body : A -> S -> M S) :
  (forall x st w, files (fst (body x st w)) = files w) ->
  forall xs st w, files (fst (for_each_M body xs st w)) = files w.
Proof.
  intros Hbody. induction xs as [|x xs IH]; intros st w; [reflexivity|].
  simpl. unfold mbind, M_bind.
  pose proof (Hbody x st w) as Hx.
  destruct (body x st w) as [w1 [st1|e]]; simpl in *.
  - now rewrite IH.
  - assumption.
Qed.

(** A loop stops with an exception as soon as one turn raises, whatever
    the state it is in. *)
Lemma for_each_M_raises {A S : Type} (body : A -> S -> M S) (fs : gmap string file)
    (x : A) :
  (forall y st w, files (fst (body y st w)) = files w) ->
  (forall st w, files w = fs -> is_OK (snd (body x st w)) = false) ->
  forall xs, x ∈ xs ->
  forall st w, files w = fs ->
    is_OK (snd (for_each_M body xs st w)) = false.
Proof.
  intros Hfiles Hx. induction xs as [|y xs IH]; intros Hin st w Hw.
  - inversion Hin.
  - simpl. unfold mbind, M_bind.
    pose proof (Hfiles y st w) as Hy.
    destruct (body y st w) as [w1 [st1|e]] eqn:E; simpl in *; [|reflexivity].
    apply elem_of_cons in Hin as [->|Hin].
    + specialize (Hx st w Hw). rewrite E in Hx. discriminate.
    + apply IH; [assumption | congruence].
Qed.

Lemma access_loop_files (fs : list string) (w : world) :
  files (fst (access_loop csv_text fs w)) = files w.
Proof.
  unfold access_loop. apply for_each_M_files. intros x st w0.
  rewrite access_turn.
  destruct (file_lines csv_text (files w0 !! x)) as [lines|e]; [|reflexivity].
  destruct (AccessLog.parse_lines lines) as [[df errors]|e]; reflexivity.
Qed.

Lemma error_loop_files (fs : list string) (w : world) :
  files (fst (error_loop csv_text fs w)) = files w.
Proof.
  unfold error_loop. apply for_each_M_files. intros x st w0.
  rewrite error_turn.
  destruct (file_lines csv_text (files w0 !! x)) as [lines|e]; [|reflexivity].
  destruct (ErrorLog.parse_lines lines) as [df|e]; reflexivity.
Qed.

(** When the function returns, the data frame has one row per line of
    the file, in the order of the lines, and the files are as before. *)
Lemma parse_access_log_file_rows (path : string) (w w' : world)
    (df : list AccessLog.row) :
  parse_access_log_file csv_text path w = (w', OK df) ->
  exists lines,
    file_lines csv_text (files w !! path) = OK lines /\
    length df = length lines /\
    Forall2 AccessLog.row_of_line lines df /\
    files w' = files w.
Proof.
  rewrite parse_access_log_file_eq.
  destruct (file_lines csv_text (files w !! path)) as [lines|e];
    [|discriminate].
  destruct (AccessLog.parse_lines lines) as [[df' errors]|e] eqn:E;
    [|discriminate].
  intros [= <- <-]. exists lines.
  destruct (AccessFacts.parse_lines_OK _ _ _ E) as (Hall & Hlen & _).
  auto.
Qed.

(** C1 fails on the code.  A file with a line that has no quote makes
    [parse_access_log_file] raise IndexError: no data frame is returned and
    no count is logged, whatever the other lines are. *)
Theorem unquoted_line_aborts_file
    (path : string) (w : world) (lines : list string) (line : string) :
  file_lines csv_text (files w !! path) = OK lines ->
  line ∈ lines ->
  Py.contains AccessLog.DQUOTE line = false ->
  parse_access_log_file csv_text path w = (w, Raise IndexError).
Proof.
  intros Hopen Hin Hq. rewrite parse_access_log_file_eq, Hopen.
  unfold AccessLog.parse_lines.
  rewrite (for_each_Raise AccessLog.line_body IndexError lines line).
  - reflexivity.
  - intros y st e. apply AccessFacts.line_body_only_IndexError.
  - assumption.
  - intros st. apply AccessFacts.line_body_no_quote.
    now apply split_length_le_1.
Qed.

(** C3, as amended.  A discovered file that cannot be opened is fatal for
    the batch: each loop stops with the exception, and when the file is an
    access log [parse_all_files] raises without writing any export. *)
Theorem unreadable_file_aborts_batch (w : world) (f : string) :
  files w !! f = None \/ files w !! f = Some Unreadable ->
  (forall fs, f ∈ fs ->
     exists w' e, access_loop csv_text fs w = (w', Raise e)
                  /\ files w' = files w) /\
  (forall fs, f ∈ fs ->
     exists w' e, error_loop csv_text fs w = (w', Raise e)
                  /\ files w' = files w) /\
  (forall access_dir error_dir access_out error_out,
     f ∈ matching (files w) (path_join access_dir "*.log.*") ->
     exists w' e,
       parse_all_files csv_text access_dir error_dir access_out error_out w
       = (w', Raise e)
       /\ files w' = files w).
Proof.
  intros Hf.
  assert (Hopen : is_OK (file_lines csv_text (files w !! f)) = false)
    by (destruct Hf as [-> | ->]; reflexivity).
  assert (Haccess : forall fs, f ∈ fs ->
            exists w' e, access_loop csv_text fs w = (w', Raise e)
                         /\ files w' = files w).
  { intros fs Hin.
    pose proof (access_loop_files fs w) as Hfiles.
    assert (Hr : is_OK (snd (access_loop csv_text fs w)) = false).
    { unfold access_loop.
      apply (for_each_M_raises _ (files w) f); try assumption; try reflexivity.
      - intros y st w0. rewrite access_turn.
        destruct (file_lines csv_text (files w0 !! y)) as [ls|e]; [|reflexivity].
        destruct (AccessLog.parse_lines ls) as [[df errors]|e]; reflexivity.
      - intros st w0 Hw0. rewrite access_turn, Hw0.
        destruct (file_lines csv_text (files w !! f)); [discriminate|].
        reflexivity. }
    destruct (access_loop csv_text fs w) as [w' [df|e]]; [discriminate|].
    exists w', e. auto. }
  split; [exact Haccess|]. split.
  - intros fs Hin.
    pose proof (error_loop_files fs w) as Hfiles.
    assert (Hr : is_OK (snd (error_loop csv_text fs w)) = false).
    { unfold error_loop.
      apply (for_each_M_raises _ (files w) f); try assumption; try reflexivity.
      - intros y st w0. rewrite error_turn.
        destruct (file_lines csv_text (files w0 !! y)) as [ls|e]; [|reflexivity].
        destruct (ErrorLog.parse_lines ls) as [df|e]; reflexivity.
      - intros st w0 Hw0. rewrite error_turn, Hw0.
        destruct (file_lines csv_text (files w !! f)); [discriminate|].
        reflexivity. }
    destruct (error_loop csv_text fs w) as [w' [df|e]]; [discriminate|].
    exists w', e. auto.
  - intros access_dir error_dir access_out error_out Hin.
    destruct (Haccess _ Hin) as (w' & e & Hloop & Hfiles).
    exists w', e. split; [|assumption].
    unfold parse_all_files.
    unfold mbind at 1, M_bind at 1, glob at 1.
    unfold mbind at 1, M_bind at 1. now rewrite Hloop.
Qed.

(** C8.  For two files discovered in the order [F1], [F2] that the
    tokenizer gets through, the combined table is the rows of [F1]
    followed by the rows of [F2], the rows of each file following its
    lines; nothing is removed or sorted.  The same holds for the error
    logs, and the combined access table is what the export holds when
    its path can be written to. *)
Theorem aggregation_order (w : world) (F1 F2 : string) :
  (forall lines1 lines2 df1 df2 e1 e2,
     file_lines csv_text (files w !! F1) = OK lines1 ->
     file_lines csv_text (files w !! F2) = OK lines2 ->
     AccessLog.parse_lines lines1 = OK (df1, e1) ->
     AccessLog.parse_lines lines2 = OK (df2, e2) ->
     (exists w', access_loop csv_text [F1; F2] w = (w', OK (df1 ++ df2))
                 /\ files w' = files w) /\
     Forall2 AccessLog.row_of_line lines1 df1 /\
     Forall2 AccessLog.row_of_line lines2 df2 /\
     forall access_dir error_dir access_out error_out,
       matching (files w) (path_join access_dir "*.log.*") = [F1; F2] ->
       access_out <> error_out ->
       writable access_out = true ->
       files (fst (parse_all_files csv_text access_dir error_dir
                     access_out error_out w)) !! access_out
       = Some (Csv (AccessTable (df1 ++ df2)))) /\
  (forall lines1 lines2 df1 df2,
     file_lines csv_text (files w !! F1) = OK lines1 ->
     file_lines csv_text (files w !! F2) = OK lines2 ->
     ErrorLog.parse_lines lines1 = OK df1 ->
     ErrorLog.parse_lines lines2 = OK df2 ->
     (exists w', error_loop csv_text [F1; F2] w = (w', OK (df1 ++ df2))
                 /\ files w' = files w) /\
     Forall2 ErrorLog.row_of_line lines1 df1 /\
     Forall2 ErrorLog.row_of_line lines2 df2).
Proof.
  split.
  - intros lines1 lines2 df1 df2 e1 e2 H1 H2 P1 P2.
    assert (Hloop : exists w',
              access_loop csv_text [F1; F2] w = (w', OK (df1 ++ df2))
              /\ files w' = files w).
    { unfold access_loop, for_each_M.
      unfold mbind at 1, M_bind at 1. rewrite access_turn, H1, P1.
      unfold mbind at 1, M_bind at 1. rewrite access_turn. simpl.
      rewrite H2, P2. eexists. split; reflexivity. }
    split; [exact Hloop|].
    split; [apply (AccessFacts.parse_lines_OK _ _ _ P1)|].
    split; [apply (AccessFacts.parse_lines_OK _ _ _ P2)|].
    intros access_dir error_dir access_out error_out Hglob Hne Hwr.
    destruct Hloop as (w' & Hloop & Hfiles).
    unfold parse_all_files.
    unfold mbind at 1, M_bind at 1, glob at 1. rewrite Hglob.
    unfold mbind at 1, M_bind at 1. rewrite Hloop.
    unfold mbind at 1, M_bind at 1, to_csv at 1. rewrite Hwr.
    unfold mbind at 1, M_bind at 1, logger_info at 1.
    unfold mbind at 1, M_bind at 1, glob at 1.
    unfold mbind at 1, M_bind at 1.
    match goal with
    | |- context [error_loop csv_text ?fs ?w0] =>
        pose proof (error_loop_files fs w0) as He;
        destruct (error_loop csv_text fs w0) as [w2 [edf|e]]
    end; simpl in He |- *.
    + unfold to_csv. destruct (writable error_out); simpl.
      * rewrite lookup_insert_ne by congruence.
        rewrite He. apply lookup_insert_eq.
      * rewrite He. apply lookup_insert_eq.
    + rewrite He. apply lookup_insert_eq.
  - intros lines1 lines2 df1 df2 H1 H2 P1 P2.
    split; [|split].
    + unfold error_loop, for_each_M.
      unfold mbind at 1, M_bind at 1. rewrite error_turn, H1, P1.
      unfold mbind at 1, M_bind at 1. rewrite error_turn. simpl.
      rewrite H2, P2. eexists. split; reflexivity.
    + apply (ErrorFacts.error_parse_lines_OK _ _ P1).
    + apply (ErrorFacts.error_parse_lines_OK _ _ P2).
Qed.

(** C9.  After any number of earlier runs with the same arguments, a run
    that returns leaves at each output path the table of that run alone:
    the earlier export is overwritten, and the data rows of the file are as
    many as the records of the batch. *)
Theorem export_overwrites (n : nat)
    (access_dir error_dir access_out error_out : string) (w w' : world) :
  let before :=
    rerun csv_text n access_dir error_dir access_out error_out w in
  parse_all_files csv_text access_dir error_dir access_out error_out before
  = (w', OK tt) ->
  exists access_batch error_batch w1 w2 w3,
    access_loop csv_text
      (matching (files before) (path_join access_dir "*.log.*")) before
    = (w1, OK access_batch) /\
    files w2 = <[access_out := Csv (AccessTable access_batch)]> (files before) /\
    error_loop csv_text
      (matching (files w2) (path_join error_dir "*.log")) w2
    = (w3, OK error_batch) /\
    files w'
    = <[error_out := Csv (ErrorTable error_batch)]>
        (<[access_out := Csv (AccessTable access_batch)]> (files before)) /\
    (exists t, files w' !! error_out = Some (Csv t)
               /\ data_rows t = length error_batch) /\
    (access_out <> error_out ->
     exists t, files w' !! access_out = Some (Csv t)
               /\ data_rows t = length access_batch).
Proof.
  intros before. unfold parse_all_files.
  unfold mbind at 1, M_bind at 1, glob at 1.
  unfold mbind at 1, M_bind at 1.
  pose proof (access_loop_files
                (matching (files before) (path_join access_dir "*.log.*"))
                before) as Ha.
  destruct (access_loop csv_text _ before) as [w1 [adf|e]]; [|discriminate].
  simpl in Ha.
  unfold mbind at 1, M_bind at 1, to_csv at 1.
  destruct (writable access_out); [|discriminate].
  unfold mbind at 1, M_bind at 1, logger_info at 1.
  unfold mbind at 1, M_bind at 1, glob at 1.
  unfold mbind at 1, M_bind at 1. simpl files. simpl log.
  set (w2 := mk_world (<[access_out := Csv (AccessTable adf)]> (files w1))
               (log w1 ++ [AccessLogsExported access_out])).
  pose proof (error_loop_files
                (matching (files w2) (path_join error_dir "*.log")) w2) as He.
  destruct (error_loop csv_text _ w2) as [w3 [edf|e]] eqn:Eloop;
    [|discriminate].
  simpl in He.
  unfold mbind, M_bind, to_csv, logger_info.
  destruct (writable error_out); [|discriminate]. simpl.
  intros [= <-]. simpl.
  exists adf, edf, w1, w2, w3.
  assert (Hw2 : files w2 = <[access_out := Csv (AccessTable adf)]> (files before))
    by (subst w2; simpl; now rewrite Ha).
  split; [reflexivity|]. split; [exact Hw2|]. split; [exact Eloop|].
  rewrite He, Ha.
  split; [reflexivity|]. split.
  - eexists. split; [apply lookup_insert_eq | reflexivity].
  - intros Hne. exists (AccessTable adf). split; [|reflexivity].
    rewrite lookup_insert_ne by congruence. apply lookup_insert_eq.
Qed.

End PipelineFacts.

Section PipelineSamples.

#[local] Existing Instance Pandas.plain.
#[local] Existing Instance every_path.

(** The loop of C1 at a file whose second line has no quote. *)
Lemma unquoted_line_aborts_file_witness :
  parse_access_log_file blank_csv "logs/access/access.log.1" unquoted_line
  = (unquoted_line, Raise IndexError).
Proof.
  apply (unquoted_line_aborts_file blank_csv "logs/access/access.log.1"
           unquoted_line
           [sample_access; "no quoted segment here" +:+ EOL]
           ("no quoted segment here" +:+ EOL)).
  - reflexivity.
  - apply elem_of_cons. right. apply elem_of_cons. now left.
  - reflexivity.
Defined.

(** The claim as the specification states it fails: the first file found
    cannot be opened, the batch stops there, the second file is never
    parsed and nothing is exported. *)
Lemma unreadable_file_stops_the_batch :
  let r :=
    parse_all_files blank_csv "logs/access" "logs/error" "out/access.csv"
      "out/error.csv" unreadable_file in
  matching (files unreadable_file) "logs/access/*.log.*"
  = ["logs/access/access.log.1"; "logs/access/access.log.2"]
  /\ snd r = Raise PermissionError
  /\ log (fst r) = [ParsingAccessLog "logs/access/access.log.1"]
  /\ files (fst r) !! "out/access.csv" = None
  /\ files (fst r) !! "out/error.csv" = None.
Proof. vm_compute. repeat split. Qed.

Lemma unreadable_file_aborts_batch_witness :
  exists w' e,
    parse_all_files blank_csv "logs/access" "logs/error" "out/access.csv"
      "out/error.csv" unreadable_file
    = (w', Raise e)
    /\ files w' = files unreadable_file.
Proof.
  apply (proj2 (proj2 (unreadable_file_aborts_batch blank_csv unreadable_file
                         "logs/access/access.log.1"
                         (or_intror eq_refl)))).
  vm_compute. apply elem_of_cons. now left.
Defined.

Lemma aggregation_order_witness :
  exists df1 df2 w',
    access_loop blank_csv
      ["logs/access/access.log.1"; "logs/access/access.log.2"] two_files
    = (w', OK (df1 ++ df2))
    /\ AccessLog.row_ip <$> df1 = ["x"; "y"]
    /\ AccessLog.row_ip <$> df2 = ["x"].
Proof.
  set (L1 := Py.readlines
               (sample_access +:+ AccessLog.shaped_line "y" "/" "200" EOL)).
  set (L2 := Py.readlines sample_access).
  assert (H1 : file_lines blank_csv
                 (files two_files !! "logs/access/access.log.1") = OK L1)
    by (vm_compute; reflexivity).
  assert (H2 : file_lines blank_csv
                 (files two_files !! "logs/access/access.log.2") = OK L2)
    by (vm_compute; reflexivity).
  destruct (AccessLog.parse_lines L1) as [[df1 e1]|] eqn:P1;
    [|vm_compute in P1; discriminate].
  destruct (AccessLog.parse_lines L2) as [[df2 e2]|] eqn:P2;
    [|vm_compute in P2; discriminate].
  destruct (proj1 (aggregation_order blank_csv two_files
                     "logs/access/access.log.1" "logs/access/access.log.2")
              L1 L2 df1 df2 e1 e2 H1 H2 P1 P2)
    as ((w' & Hloop & _) & _).
  exists df1, df2, w'. split; [exact Hloop|].
  vm_compute in P1. vm_compute in P2.
  injection P1 as <- _. injection P2 as <- _. split; reflexivity.
Defined.

Lemma export_overwrites_witness :
  exists w' t,
    parse_all_files blank_csv "logs/access" "logs/error" "out/access.csv"
      "out/error.csv"
      (rerun blank_csv 2 "logs/access" "logs/error" "out/access.csv"
         "out/error.csv" two_files)
    = (w', OK tt)
    /\ files w' !! "out/access.csv" = Some (Csv t)
    /\ data_rows t = 3%nat.
Proof.
  set (before := rerun blank_csv 2 "logs/access" "logs/error"
                   "out/access.csv" "out/error.csv" two_files).
  set (run := parse_all_files blank_csv "logs/access" "logs/error"
                "out/access.csv" "out/error.csv" before).
  assert (Hs : snd run = OK tt) by (vm_compute; reflexivity).
  assert (Hrun : run = (fst run, OK tt))
    by (rewrite <- Hs; apply surjective_pairing).
  destruct (export_overwrites blank_csv 2 "logs/access" "logs/error"
              "out/access.csv" "out/error.csv" two_files (fst run) Hrun)
    as (ab & eb & w1 & w2 & w3 & Ha & _ & _ & _ & _ & Hout).
  destruct (Hout ltac:(discriminate)) as (t & Ht & Hrows).
  exists (fst run), t. split; [exact Hrun|]. split; [exact Ht|].
  rewrite Hrows.
  assert (Hlen : (fun r => match snd r with
                           | OK df => length df
                           | Raise _ => 0%nat
                           end)
                   (access_loop blank_csv
                      (matching (files before)
                         (path_join "logs/access" "*.log.*")) before)
                 = 3%nat) by (vm_compute; reflexivity).
  fold before in Ha. rewrite Ha in Hlen. exact Hlen.
Defined.

End PipelineSamples.

(** ** The collector *)

Module CollectorFacts.
Import Collector.

Section RemoteFacts.

Variable connect : string -> string -> string -> string -> result unit.
Variable listdir : string -> result (list string).
Variable remote_read : string -> result string.
Variable gunzip : string -> result string.

(** The cleanup reads the counter first: without a value it raises at
    once, before any message and before the connections are closed. *)
Lemma cleanup_unbound (s : state) :
  files_downloaded s = None ->
  cleanup s = (s, Raised UnboundLocalError).
Proof.
  intros H. unfold cleanup, mbind, C_bind, get_files_downloaded.
  now rewrite H.
Qed.

(** C10.  When the listing of the remote directory raises
    FileNotFoundError, the error is logged and the early return is taken,
    the cleanup then runs and reads the download counter, which has no
    value on that path: the call ends with UnboundLocalError instead of
    returning, with the one error message in the log and both connections
    still open. *)
Theorem listing_not_found_raises_in_cleanup
    (host username password port remote_log_path local_access_log_path
       local_error_log_path : string) (local : gmap string string) :
  connect host username password port = OK tt ->
  listdir remote_log_path = Raise FileNotFoundError ->
  log_download connect listdir remote_read gunzip host username password port
    remote_log_path local_access_log_path local_error_log_path (entry local)
  = (mk_state None None local [RemotePathNotFound remote_log_path]
       false false,
     Raised UnboundLocalError).
Proof.
  intros Hconnect Hlist.
  unfold log_download, mbind, C_bind, of_result, try_finally, try_except.
  rewrite Hconnect, Hlist. reflexivity.
Qed.

End RemoteFacts.

Lemma listing_not_found_raises_in_cleanup_witness :
  snd (log_download (fun _ _ _ _ => OK tt)
         (fun _ => Raise FileNotFoundError)
         (fun _ => Raise FileNotFoundError) (fun _ => Raise BadGzipFile)
         "host" "user" "secret" "22" "/var/log/nginx" "logs/access"
         "logs/error" (entry ∅))
  = Raised UnboundLocalError.
Proof.
  rewrite (listing_not_found_raises_in_cleanup
             (fun _ _ _ _ => OK tt) (fun _ => Raise FileNotFoundError)
             (fun _ => Raise FileNotFoundError) (fun _ => Raise BadGzipFile)
             "host" "user" "secret" "22" "/var/log/nginx" "logs/access"
             "logs/error" ∅ eq_refl eq_refl).
  reflexivity.
Defined.

End CollectorFacts.

(** * Further properties *)

(** ** The access-log tokenizer, line by line *)

Module AccessExtra.
Import AccessLog AccessShape.

#[local] Arguments Py.split : simpl never.

Lemma index_segment (l : list string) (i : nat) :
  Py.index l i
  = if (i <? length l)%nat then OK (segment l i) else Raise IndexError.
Proof.
  unfold Py.index, segment.
  destruct (Nat.ltb_spec i (length l)) as [Hlt|Hge].
  - destruct (lookup_lt_is_Some_2 l i Hlt) as [x ->]. reflexivity.
  - now rewrite (lookup_ge_None_2 l i Hge).
Qed.

Ltac segment_step :=
  match goal with
  | |- context [mbind _ (Py.index ?l ?i)] =>
      let E := fresh "E" in
      rewrite (index_segment l i);
      destruct (i <? length l)%nat eqn:E; simpl
  end.

Ltac ltb_lengths :=
  repeat match goal with
  | H : (_ <? _)%nat = true |- _ => apply Nat.ltb_lt in H
  | H : (_ <? _)%nat = false |- _ => apply Nat.ltb_ge in H
  end.

Section WithLibrary.

Context `{pandas : Pandas.Library}.

(** The body of the loop, by cases on the shape of the line. *)
Lemma line_body_shape (line : string) (st : columns) :
  exists r u,
    line_body line st
    = if gets_through line
      then OK (app st
                 (mk_columns
                    [segment (Py.split " " (segment (Py.split QUOTE line) 0)) 0]
                    [segment (Py.split " " (segment (Py.split QUOTE line) 0)) 3]
                    [r] [u]
                    [segment (Py.split " " (segment (Py.split QUOTE line) 2)) 1]
                    [Py.slice_from (Py.split QUOTE line) 5]
                    (malformed_units line)))
      else Raise IndexError.
Proof.
  destruct (gets_through line) eqn:Hg; unfold gets_through in Hg.
  - unfold line_body.
    destruct (AccessFacts.request_step_OK (Py.split QUOTE line) st)
      as (r & u & ->).
    exists r, u. unfold fields_step. simpl.
    unfold mbind, result_bind, rbind.
    apply andb_prop in Hg as [Hg H2]. apply andb_prop in Hg as [H0 H3].
    assert (H00 : (0 <? length (Py.split QUOTE line))%nat = true)
      by (ltb_lengths; apply Nat.ltb_lt; lia).
    assert (H30 : (0 <? length (Py.split " "
                                  (segment (Py.split QUOTE line) 0)))%nat
                  = true)
      by (ltb_lengths; apply Nat.ltb_lt; lia).
    repeat (rewrite index_segment, ?H00, ?H30, ?H3, ?H0, ?H2; cbn beta iota).
    unfold app, status_code_append, datetime_append, ip_append,
      user_agent_append, malformed_units; simpl.
    reflexivity.
  - exists None, None.
    destruct (line_body line st) as [st'|e] eqn:E.
    + exfalso.
      destruct (AccessFacts.line_body_OK _ _ _ E)
        as (p0 & i0 & d3 & p2 & s1 & r & u & H0 & _ & H3 & H2 & H1 & _).
      unfold segment in Hg. rewrite H0, H2 in Hg. simpl in Hg.
      apply lookup_lt_Some, Nat.ltb_lt in H3, H2, H1.
      rewrite H3, H2, H1 in Hg. discriminate.
    + f_equal. eapply AccessFacts.line_body_only_IndexError, E.
Qed.

Lemma for_each_shape (lines : list string) :
  forall st, is_OK (for_each line_body lines st) = forallb gets_through lines.
Proof.
  induction lines as [|line lines IH]; intros st; [reflexivity|].
  simpl. destruct (line_body_shape line st) as (r & u & ->).
  destruct (gets_through line); simpl; [apply IH | reflexivity].
Qed.

(** X1.  The tokenizer returns exactly for the files all of whose lines
    have three or more quote-delimited segments, four or more
    blank-separated tokens before the first quote and two or more in the
    third segment; for any other file it raises IndexError. *)
Theorem tokenizer_returns_iff_shape (lines : list string) :
  is_OK (AccessLog.parse_lines lines) = forallb gets_through lines /\
  (forallb gets_through lines = false ->
   AccessLog.parse_lines lines = Raise IndexError).
Proof.
  assert (H : is_OK (AccessLog.parse_lines lines) = forallb gets_through lines).
  { rewrite <- (for_each_shape lines start).
    destruct (for_each line_body lines start) as [st|e] eqn:E.
    - now rewrite (AccessFacts.parse_lines_returns _ _ E).
    - unfold AccessLog.parse_lines. now rewrite E. }
  split; [exact H|].
  intros Hf. rewrite Hf in H.
  unfold AccessLog.parse_lines in *.
  destruct (for_each line_body lines start) as [st|e] eqn:E; simpl in *.
  - pose proof (for_each_shape lines start) as Hs.
    rewrite E, Hf in Hs. discriminate.
  - f_equal. clear H Hf. revert e E. generalize start.
    induction lines as [|line lines IH]; intros st e; simpl; [discriminate|].
    destruct (line_body line st) as [st'|e'] eqn:El; simpl.
    + apply IH.
    + intros [= <-]. eapply AccessFacts.line_body_only_IndexError, El.
Qed.

Lemma slice_from_5 {A : Type} (l : list A) : Py.slice_from l 5 = drop 5 l.
Proof.
  unfold Py.slice_from, Py.norm_bound. simpl.
  destruct (Nat.le_gt_cases 5 (length l)) as [Hle|Hgt].
  - f_equal. lia.
  - rewrite !drop_ge; [reflexivity | lia | lia].
Qed.

(** What lines 54-85 append tells the units they count. *)
Lemma request_step_units (parts : list string) (st : columns) :
  exists r u,
    request_step parts st
    = OK (mk_columns (ip st) (datetime st) (request st ++ [r])
            (url st ++ [u]) (status_code st) (user_agent st)
            (errors st + units_of_parts parts))
    /\ units_of_parts parts
       = match r, u with
         | Some _, _ => 0
         | None, Some _ => 1
         | None, None => 2
         end.
Proof.
  unfold request_step, units_of_parts.
  destruct parts as [|p0 [|p1 rest]]; simpl;
    try (exists None, None; split; reflexivity).
  destruct (Py.split " " p1) as [|l0 [|l1 toks]] eqn:E; simpl;
    try (exists None, None; split; reflexivity).
  destruct (Py.mem l0 requests); do 2 eexists;
    (split; [unfold url_append, request_append, errors_add; simpl;
             do 2 f_equal; lia | reflexivity]).
Qed.

(** The row of a line, field by field. *)
Lemma row_of_line_fields (line : string) (r : row) :
  row_of_line line r ->
  let parts := Py.split QUOTE line in
  row_ip r = segment (Py.split " " (segment parts 0)) 0 /\
  row_datetime r
  = Pandas.cell datetime_format (segment (Py.split " " (segment parts 0)) 3) /\
  row_status_code r = segment (Py.split " " (segment parts 2)) 1 /\
  row_user_agent r = drop 5 parts /\
  row_units r = malformed_units line.
Proof.
  intros [u0 [s (Hs & Hf & _)]%AccessFacts.parse_lines_single] parts.
  subst parts. revert Hs. unfold line_body.
  destruct (request_step_units (Py.split QUOTE line) start)
    as (r0 & u & -> & Hunits).
  unfold fields_step. simpl. unfold mbind, result_bind, rbind.
  repeat (rewrite index_segment;
          match goal with
          | |- context [if (?i <? ?n)%nat then _ else _] =>
              destruct (i <? n)%nat; [cbn beta iota | discriminate]
          end).
  intros [= <-]. simpl in Hf. injection Hf as <-. simpl.
  rewrite slice_from_5. unfold row_units, malformed_units; simpl.
  repeat split; try reflexivity. now rewrite Hunits.
Qed.

(** X2.  When the tokenizer returns, the row at index [i] comes from the
    line at index [i] by position alone: the client address is the first
    blank-separated token before the first quote, the timestamp the
    conversion of the fourth, the status code the second token of the third
    quote-delimited segment, and the user agent the segments from the sixth
    on (none when the line has five segments or fewer). *)
Theorem rows_by_position (lines : list string) (df : list row) (e : Z) :
  AccessLog.parse_lines lines = OK (df, e) ->
  forall (i : nat) (line : string),
    lines !! i = Some line ->
    exists r,
      df !! i = Some r /\
      let parts := Py.split QUOTE line in
      row_ip r = segment (Py.split " " (segment parts 0)) 0 /\
      row_datetime r
      = Pandas.cell "[%d/%b/%Y:%H:%M:%S"
          (segment (Py.split " " (segment parts 0)) 3) /\
      row_status_code r = segment (Py.split " " (segment parts 2)) 1 /\
      row_user_agent r = drop 5 parts.
Proof.
  intros Hp i line Hi.
  destruct (AccessFacts.parse_lines_OK _ _ _ Hp) as (Hall & _ & _).
  destruct (Forall2_lookup_l _ _ _ _ _ Hall Hi) as (r & Hr & Hrow).
  exists r. split; [assumption|].
  destruct (row_of_line_fields _ _ Hrow) as (H1 & H2 & H3 & H4 & _).
  auto.
Qed.

(** The count is the sum of the units of the rows. *)
Lemma total_units_frame (lines : list string) (df : list row) :
  Forall2 row_of_line lines df -> total_units lines = frame_units df.
Proof.
  unfold total_units, frame_units.
  induction 1 as [|line r lines df Hrow _ IH]; [reflexivity|].
  rewrite !fmap_cons. simpl. rewrite IH.
  destruct (row_of_line_fields _ _ Hrow) as (_ & _ & _ & _ & ->).
  reflexivity.
Qed.

Lemma frame_units_bounds (df : list row) :
  0 <= frame_units df <= 2 * Z.of_nat (length df).
Proof.
  unfold frame_units. induction df as [|r df IH]; [simpl; lia|].
  rewrite fmap_cons, length_cons. cbn [foldr].
  assert (0 <= row_units r <= 2)
    by (unfold row_units; destruct (row_request r), (row_url r); lia).
  lia.
Qed.

(** X3.  When the tokenizer returns, the count it logs can be read off
    the table: a row with a method stands for no unit, a row with a URL but
    no method for one, a row with neither for two; so the count lies
    between zero and twice the number of rows. *)
Theorem count_read_off_table (lines : list string) (df : list row) (e : Z) :
  AccessLog.parse_lines lines = OK (df, e) ->
  e = frame_units df /\ 0 <= e <= 2 * Z.of_nat (length lines).
Proof.
  intros Hp.
  destruct (AccessFacts.parse_lines_OK _ _ _ Hp) as (Hall & Hlen & ->).
  rewrite (total_units_frame _ _ Hall). split; [reflexivity|].
  rewrite <- Hlen. apply frame_units_bounds.
Qed.

End WithLibrary.

Section AccessExtraSamples.

#[local] Existing Instance Pandas.plain.

Lemma tokenizer_returns_iff_shape_witness :
  AccessLog.parse_lines
    [sample_access; "x - - [d +0200] " +:+ QUOTE +:+ "GET / HTTP/1.1"]
  = Raise IndexError.
Proof.
  exact (proj2 (tokenizer_returns_iff_shape
                  [sample_access;
                   "x - - [d +0200] " +:+ QUOTE +:+ "GET / HTTP/1.1"])
           eq_refl).
Defined.

Lemma rows_by_position_witness :
  exists r,
    [mk_row "x" None None (Some "- -") "b" []] !! 0%nat = Some r
    /\ row_ip r = "x" /\ row_datetime r = None
    /\ row_status_code r = "b" /\ row_user_agent r = [].
Proof.
  destruct (rows_by_position (pandas := Pandas.plain)
              ["x 1 2 3 " +:+ QUOTE +:+ "- -" +:+ QUOTE +:+ "a b"]
              [mk_row "x" None None (Some "- -") "b" []] 1
              ltac:(vm_compute; reflexivity) 0%nat _ eq_refl)
    as (r & Hr & Hip & Hd & Hs & Hu).
  exists r. split; [exact Hr|].
  rewrite Hip, Hd, Hs, Hu. vm_compute. repeat split.
Defined.

Lemma count_read_off_table_witness :
  1 = frame_units [mk_row "x" None None (Some "- -") "b" []]
  /\ 0 <= 1 <= 2 * Z.of_nat 1.
Proof.
  exact (count_read_off_table (pandas := Pandas.plain)
           ["x 1 2 3 " +:+ QUOTE +:+ "- -" +:+ QUOTE +:+ "a b"]
           [mk_row "x" None None (Some "- -") "b" []] 1
           ltac:(vm_compute; reflexivity)).
Defined.

End AccessExtraSamples.

End AccessExtra.

(** ** The error-log tokenizer, file by file *)

Module ErrorExtra.
Import ErrorLog.

Section WithLibrary.

Context `{pandas : Pandas.Library}.

Lemma for_each_fits (lines : list string) :
  forall st,
    for_each line_body lines st
    = if forallb fits lines
      then OK (foldl app st (extract <$> lines))
      else Raise IndexError.
Proof.
  induction lines as [|line lines IH]; intros st; [reflexivity|].
  rewrite fmap_cons. cbn [for_each forallb foldl].
  rewrite ErrorFacts.line_body_fits.
  destruct (fits line); simpl; [apply IH | reflexivity].
Qed.

Lemma frame_foldl (lines : list string) :
  forall st,
    same_length st = true ->
    same_length (foldl app st (extract <$> lines)) = true /\
    frame (foldl app st (extract <$> lines))
    = frame st ++ flat_map (fun line => frame (extract line)) lines.
Proof.
  induction lines as [|line lines IH]; intros st Hst.
  - simpl. split; [assumption | now rewrite app_nil_r].
  - rewrite fmap_cons. cbn [foldl flat_map].
    destruct (IH (app st (extract line))) as (Hsl & Hf).
    { now apply ErrorFacts.error_same_length_app. }
    split; [assumption|].
    rewrite Hf, ErrorFacts.error_frame_app by assumption.
    now rewrite <- app_assoc.
Qed.

(** X4.  [parse_error_log] on the lines of a file: when every line fits
    the grammar it returns one row per line, in the order of the lines,
    each row holding the entries found by position; otherwise it raises
    IndexError and returns nothing.  An empty file gives an empty table. *)
Theorem error_tokenizer_by_cases (lines : list string) :
  ErrorLog.parse_lines lines
  = if forallb fits lines
    then OK (flat_map (fun line => frame (extract line)) lines)
    else Raise IndexError.
Proof.
  unfold ErrorLog.parse_lines. rewrite for_each_fits.
  destruct (forallb fits lines); [|reflexivity].
  simpl. destruct (frame_foldl lines start eq_refl) as (Hsl & Hf).
  unfold DataFrame. now rewrite Hsl, Hf.
Qed.

End WithLibrary.

End ErrorExtra.

(** ** Requests and timestamps, line by line *)

Module LineFacts.
Import AccessShape.

Section WithLibrary.

Context `{pandas : Pandas.Library}.

(** A line the body does not get through raises IndexError, whatever the
    columns are. *)
Lemma line_body_stops (line : string) (st : AccessLog.columns) :
  gets_through line = false ->
  AccessLog.line_body line st = Raise IndexError.
Proof.
  intros Hg.
  destruct (AccessExtra.line_body_shape line st) as (r & u & ->).
  now rewrite Hg.
Qed.

(** C4, on the code.  For a line whose first quoted segment has two or
    more blank-separated tokens [l0 :: mid ++ [lst]], lines 54-85 append
    what the claim says: if [l0] is a recognized method, the method [l0],
    the join of the tokens strictly between the first and the last as URL,
    and no unit; otherwise no method, the join of all the tokens as URL,
    and one unit.  The line yields the record of the claim only when it
    also has a third quote-delimited segment with two tokens and four
    tokens before the first quote; any other line of the claim raises
    IndexError at lines 88-97, in whatever file it stands, and no record
    and no count are produced. *)
Theorem method_and_url_by_shape
    (line : string) (st : AccessLog.columns) (p1 l0 : string)
    (mid : list string) (lst : string) :
  Py.split AccessLog.QUOTE line !! 1%nat = Some p1 ->
  Py.split " " p1 = l0 :: mid ++ [lst] ->
  let known := Py.mem l0 AccessLog.requests in
  let method := if known then Some l0 else None in
  let target :=
    Some (Py.join " " (if known then mid else l0 :: mid ++ [lst])) in
  let units := if known then 0 else 1 in
  (exists st1,
      AccessLog.request_step (Py.split AccessLog.QUOTE line) st = OK st1 /\
      AccessLog.request st1 = AccessLog.request st ++ [method] /\
      AccessLog.url st1 = AccessLog.url st ++ [target] /\
      AccessLog.errors st1 = AccessLog.errors st + units) /\
  (gets_through line = true ->
   exists r,
     AccessLog.parse_lines [line] = OK ([r], units) /\
     AccessLog.row_request r = method /\ AccessLog.row_url r = target) /\
  (gets_through line = false ->
   AccessLog.line_body line st = Raise IndexError /\
   forall before after,
     AccessLog.parse_lines (before ++ line :: after) = Raise IndexError).
Proof.
  intros Hp1 Hsplit known method target units.
  destruct (AccessFacts.request_method_and_url line st p1 l0 mid lst
              Hp1 Hsplit) as (Hstep & _ & _).
  destruct (AccessFacts.request_method_and_url line AccessLog.start p1 l0
              mid lst Hp1 Hsplit) as (_ & _ & Hrow).
  fold known in Hstep, Hrow. fold method target units in Hstep, Hrow.
  split; [exact Hstep|]. split.
  - intros Hg.
    assert (Hok : is_OK (AccessLog.parse_lines [line]) = true).
    { destruct (for_each AccessLog.line_body [line] AccessLog.start)
        as [s|e] eqn:E.
      - now rewrite (AccessFacts.parse_lines_returns _ _ E).
      - pose proof (AccessExtra.for_each_shape [line] AccessLog.start) as Hs.
        rewrite E in Hs. simpl in Hs. rewrite Hg in Hs. discriminate. }
    destruct (AccessLog.parse_lines [line]) as [[df u]|e] eqn:E;
      [|discriminate].
    destruct (AccessFacts.parse_lines_OK _ _ _ E) as (_ & Hlen & _).
    destruct df as [|r [|r' df]]; try discriminate.
    destruct (Hrow r u eq_refl) as (Hr & Hu & ->).
    exists r. auto.
  - intros Hg. split; [now apply line_body_stops|].
    intros before after. unfold AccessLog.parse_lines.
    rewrite (for_each_Raise AccessLog.line_body IndexError
               (before ++ line :: after) line).
    + reflexivity.
    + intros y s e. apply AccessFacts.line_body_only_IndexError.
    + apply elem_of_app. right. apply elem_of_cons. now left.
    + intros s. now apply line_body_stops.
Qed.


End WithLibrary.

Section LineSamples.

#[local] Existing Instance Pandas.plain.

(** The format of the error log reads the date of the specification. *)
Example error_log_timestamp :
  Pandas.convert ErrorLog.date_time_format "2024/09/29 10:15:03"
  = OK (Some (Pandas.mk_datetime 2024 9 29 10 15 3 0)).
Proof. reflexivity. Qed.

(** The sample line of [test.py] cut after its request: the method and
    the URL are appended, and the file that holds the line is lost. *)
Lemma method_and_url_by_shape_witness :
  AccessLog.parse_lines
    [sample_access;
     "x - - [29/Sep/2024:00:24:27 +0200] " +:+ AccessLog.QUOTE
     +:+ "GET /path HTTP/1.1"]
  = Raise IndexError.
Proof.
  exact (proj2 (proj2 (proj2 (method_and_url_by_shape
           ("x - - [29/Sep/2024:00:24:27 +0200] " +:+ AccessLog.QUOTE
            +:+ "GET /path HTTP/1.1")
           AccessLog.start "GET /path HTTP/1.1" "GET" ["/path"] "HTTP/1.1"
           eq_refl eq_refl)) eq_refl) [sample_access] []).
Defined.


End LineSamples.

End LineFacts.

(** ** The loop of [test.py] *)

Module TestExtra.
Import AccessShape.

#[local] Arguments Py.split : simpl never.
#[local] Arguments Py.slice : simpl never.
#[local] Arguments Py.join : simpl never.

Section WithLibrary.

Context `{pandas : Pandas.Library}.

Lemma request_step_classify (parts : list string) (st : AccessLog.columns) :
  exists n,
    AccessLog.request_step parts st
    = OK (AccessLog.mk_columns (AccessLog.ip st) (AccessLog.datetime st)
            (AccessLog.request st ++ [fst (classify parts)])
            (AccessLog.url st ++ [snd (classify parts)])
            (AccessLog.status_code st) (AccessLog.user_agent st) n).
Proof.
  unfold AccessLog.request_step, classify.
  destruct parts as [|p0 [|p1 rest]]; simpl; try (eexists; reflexivity).
  destruct (Py.split " " p1) as [|l0 [|l1 toks]] eqn:E; simpl;
    try (eexists; reflexivity).
  destruct (Py.mem l0 AccessLog.requests); simpl; eexists; reflexivity.
Qed.

Lemma test_line_body (line : string) (st : TestScript.state) :
  let parts := Py.split AccessLog.QUOTE line in
  let request := TestScript.request st ++ [fst (classify parts)] in
  let url := TestScript.url st ++ [snd (classify parts)] in
  TestScript.line_body line st
  = OK (TestScript.mk_state request url
          (TestScript.output st
           ++ [TestScript.PrintParts parts]
           ++ [TestScript.PrintRequest request]
           ++ [TestScript.PrintUrl url])).
Proof.
  unfold TestScript.line_body, classify.
  destruct (Py.split AccessLog.QUOTE line) as [|p0 [|p1 rest]]; simpl;
    unfold TestScript.print; simpl; rewrite <- ?app_assoc; try reflexivity.
  destruct (Py.split " " p1) as [|l0 [|l1 toks]] eqn:E; simpl;
    rewrite <- ?app_assoc; try reflexivity.
  destruct (Py.mem l0 AccessLog.requests); simpl;
    rewrite <- ?app_assoc; reflexivity.
Qed.

Lemma test_loop (lines : list string) :
  forall st,
    exists out,
      for_each TestScript.line_body lines st
      = OK (TestScript.mk_state
              (TestScript.request st
               ++ ((fun l => fst (classify (Py.split AccessLog.QUOTE l)))
                     <$> lines))
              (TestScript.url st
               ++ ((fun l => snd (classify (Py.split AccessLog.QUOTE l)))
                     <$> lines))
              out)
      /\ length out = (length (TestScript.output st) + 3 * length lines)%nat.
Proof.
  induction lines as [|line lines IH]; intros st.
  - exists (TestScript.output st). simpl. rewrite !app_nil_r.
    split; [now destruct st | lia].
  - cbn [for_each]. rewrite test_line_body. cbn [mbind result_bind rbind].
    destruct (IH (TestScript.mk_state
                    (TestScript.request st
                     ++ [fst (classify (Py.split AccessLog.QUOTE line))])
                    (TestScript.url st
                     ++ [snd (classify (Py.split AccessLog.QUOTE line))])
                    (TestScript.output st
                     ++ [TestScript.PrintParts (Py.split AccessLog.QUOTE line)]
                     ++ [TestScript.PrintRequest
                           (TestScript.request st
                            ++ [fst (classify (Py.split AccessLog.QUOTE line))])]
                     ++ [TestScript.PrintUrl
                           (TestScript.url st
                            ++ [snd (classify (Py.split AccessLog.QUOTE line))])])))
      as (out & -> & Hlen).
    exists out. cbn [TestScript.request TestScript.url TestScript.output] in *.
    rewrite !fmap_cons, <- !app_assoc. split; [reflexivity|].
    rewrite Hlen, !length_app. simpl. lia.
Qed.

Lemma row_of_line_classify (line : string) (r : AccessLog.row) :
  AccessLog.row_of_line line r ->
  AccessLog.row_request r = fst (classify (Py.split AccessLog.QUOTE line)) /\
  AccessLog.row_url r = snd (classify (Py.split AccessLog.QUOTE line)).
Proof.
  intros [u0 [s (Hs & Hf & _)]%AccessFacts.parse_lines_single].
  revert Hs. unfold AccessLog.line_body.
  destruct (request_step_classify (Py.split AccessLog.QUOTE line)
              AccessLog.start) as (n & ->).
  unfold AccessLog.fields_step. cbn [mbind result_bind rbind].
  AccessFacts.case_index; intros [= <-].
  simpl in Hf. injection Hf as <-. split; reflexivity.
Qed.

(** X5.  The loop of [test.py] gets through every list of lines, adding
    one method and one URL per line and printing three times per line; and
    whenever [parse_access_log_file] gets through the same lines, the
    method and URL columns of its table are the two lists of [test.py]. *)
Theorem test_loop_agrees (lines : list string) (output_csv_path : string) :
  exists st,
    TestScript.parse_log_file lines output_csv_path = OK st /\
    length (TestScript.request st) = length lines /\
    length (TestScript.url st) = length lines /\
    length (TestScript.output st) = (3 * length lines)%nat /\
    forall df e,
      AccessLog.parse_lines lines = OK (df, e) ->
      AccessLog.row_request <$> df = TestScript.request st /\
      AccessLog.row_url <$> df = TestScript.url st.
Proof.
  unfold TestScript.parse_log_file.
  destruct (test_loop lines TestScript.start) as (out & -> & Hlen).
  eexists. split; [reflexivity|].
  cbn [TestScript.request TestScript.url TestScript.output TestScript.start
       app] in *.
  rewrite !length_fmap.
  split; [reflexivity|]. split; [reflexivity|]. split; [exact Hlen|].
  intros df e Hp.
  destruct (AccessFacts.parse_lines_OK _ _ _ Hp) as (Hall & _).
  clear Hp Hlen. induction Hall as [|line r ls df Hrow _ IH]; [split; reflexivity|].
  rewrite !fmap_cons. destruct IH as (-> & ->).
  destruct (row_of_line_classify _ _ Hrow) as (-> & ->).
  split; reflexivity.
Qed.

End WithLibrary.

Section TestSamples.

#[local] Existing Instance Pandas.plain.

Lemma test_loop_agrees_witness :
  exists st,
    TestScript.parse_log_file [sample_access; "no quote"] "dataframes/logs.csv"
    = OK st
    /\ TestScript.request st = [Some "GET"; None]
    /\ TestScript.url st = [Some "/path"; None].
Proof.
  destruct (test_loop_agrees [sample_access; "no quote"] "dataframes/logs.csv")
    as (st & Hst & _).
  exists st. split; [exact Hst|].
  vm_compute in Hst. injection Hst as <-. split; reflexivity.
Defined.

End TestSamples.

End TestExtra.

(** ** The pipeline on any number of files *)

Section PipelineExtra.

Variable csv_text : table -> string.

Context `{pandas : Pandas.Library} `{disk : Writable}.

Lemma access_loop_from (w : world) (fs : list string)
    (dfs : list (list AccessLog.row)) :
  Forall2 (fun f df => exists lines e,
             file_lines csv_text (files w !! f) = OK lines /\
             AccessLog.parse_lines lines = OK (df, e)) fs dfs ->
  forall acc w0,
    files w0 = files w ->
    exists w',
      for_each_M (fun log_file all_access_logs_df =>
          _ ← logger_info (ParsingAccessLog log_file);
          df_access_log ← parse_access_log_file csv_text log_file;
          mret (concat all_access_logs_df df_access_log))
        fs acc w0
      = (w', OK (acc ++ mjoin dfs))
      /\ files w' = files w.
Proof.
  induction 1 as [|f df fs dfs (lines & e & Hopen & Hparse) _ IH];
    intros acc w0 Hw0.
  - exists w0. simpl. rewrite app_nil_r. split; [reflexivity | assumption].
  - cbn [for_each_M]. unfold mbind at 1, M_bind at 1.
    rewrite access_turn, Hw0, Hopen, Hparse.
    destruct (IH (acc ++ df)
                (mk_world (files w0)
                   ((log w0 ++ [ParsingAccessLog f]) ++ [FileAdded f e])))
      as (w' & Hloop & Hfiles); [exact Hw0|].
    exists w'. rewrite Hw0 in Hloop. rewrite Hloop.
    split; [|assumption]. cbn [mjoin list_join]. now rewrite app_assoc.
Qed.

Lemma error_loop_from (w : world) (fs : list string)
    (dfs : list (list ErrorLog.row)) :
  Forall2 (fun f df => exists lines,
             file_lines csv_text (files w !! f) = OK lines /\
             ErrorLog.parse_lines lines = OK df) fs dfs ->
  forall acc w0,
    files w0 = files w ->
    exists w',
      for_each_M (fun log_file all_error_logs_df =>
          _ ← logger_info (ProcessingErrorLog log_file);
          df_error_log ← parse_error_log csv_text log_file;
          mret (concat all_error_logs_df df_error_log))
        fs acc w0
      = (w', OK (acc ++ mjoin dfs))
      /\ files w' = files w.
Proof.
  induction 1 as [|f df fs dfs (lines & Hopen & Hparse) _ IH];
    intros acc w0 Hw0.
  - exists w0. simpl. rewrite app_nil_r. split; [reflexivity | assumption].
  - cbn [for_each_M]. unfold mbind at 1, M_bind at 1.
    rewrite error_turn, Hw0, Hopen, Hparse.
    destruct (IH (acc ++ df)
                (mk_world (files w0)
                   ((log w0 ++ [ProcessingErrorLog f]) ++ [ErrorFileAdded f])))
      as (w' & Hloop & Hfiles); [exact Hw0|].
    exists w'. rewrite Hw0 in Hloop. rewrite Hloop.
    split; [|assumption]. cbn [mjoin list_join]. now rewrite app_assoc.
Qed.

(** X6.  For any list of discovered files, none, one or many, that the
    tokenizer gets through, each loop of [parse_all_files] returns the
    tables of the files joined end to end in the order of the list, and
    leaves the files as they are. *)
Theorem aggregation_of_all_files (w : world) (fs : list string) :
  (forall dfs,
     Forall2 (fun f df => exists lines e,
                file_lines csv_text (files w !! f) = OK lines /\
                AccessLog.parse_lines lines = OK (df, e)) fs dfs ->
     exists w', access_loop csv_text fs w = (w', OK (mjoin dfs))
                /\ files w' = files w) /\
  (forall dfs,
     Forall2 (fun f df => exists lines,
                file_lines csv_text (files w !! f) = OK lines /\
                ErrorLog.parse_lines lines = OK df) fs dfs ->
     exists w', error_loop csv_text fs w = (w', OK (mjoin dfs))
                /\ files w' = files w).
Proof.
  split; intros dfs Hall.
  - exact (access_loop_from w fs dfs Hall [] w eq_refl).
  - exact (error_loop_from w fs dfs Hall [] w eq_refl).
Qed.

(** X7.  A run of [parse_all_files] that raises never writes the export
    of the error logs: it leaves the files untouched, or, when the loop
    over the access logs got through, changed by the export of the access
    logs alone. *)
Theorem failed_run_writes_no_error_export
    (access_dir error_dir access_out error_out : string) (w w' : world)
    (e : exn) :
  parse_all_files csv_text access_dir error_dir access_out error_out w
  = (w', Raise e) ->
  files w' = files w \/
  exists access_batch w1,
    access_loop csv_text
      (matching (files w) (path_join access_dir "*.log.*")) w
    = (w1, OK access_batch) /\
    files w' = <[access_out := Csv (AccessTable access_batch)]> (files w).
Proof.
  unfold parse_all_files.
  unfold mbind at 1, M_bind at 1, glob at 1.
  unfold mbind at 1, M_bind at 1.
  pose proof (access_loop_files csv_text
                (matching (files w) (path_join access_dir "*.log.*")) w)
    as Ha.
  destruct (access_loop csv_text _ w) as [w1 [adf|e1]]; simpl in Ha.
  - unfold mbind at 1, M_bind at 1, to_csv at 1.
    destruct (writable access_out); [|intros [= <- <-]; now left].
    unfold mbind at 1, M_bind at 1, logger_info at 1.
    unfold mbind at 1, M_bind at 1, glob at 1.
    unfold mbind at 1, M_bind at 1. cbn [files log].
    match goal with
    | |- context [error_loop csv_text ?fs ?w0] =>
        pose proof (error_loop_files csv_text fs w0) as He;
        destruct (error_loop csv_text fs w0) as [w3 [edf|e3]]
    end; cbn [fst files] in He.
    + unfold mbind, M_bind, to_csv, logger_info.
      destruct (writable error_out); [discriminate|].
      intros [= <- <-]. right. exists adf, w1.
      split; [reflexivity|]. now rewrite He, Ha.
    + intros [= <- <-]. right. exists adf, w1.
      split; [reflexivity|]. now rewrite He, Ha.
  - intros [= <- <-]. now left.
Qed.

(** X8.  With no file discovered in either directory, [parse_all_files]
    goes on to the exports.  When both output paths can be written to it
    writes both exports, each with no data row, and returns.  When the
    path of the access export cannot be written to, it raises there and
    nothing is written or logged; when only the path of the error export
    cannot, it raises after the empty access export is written. *)
Theorem no_files_empty_exports
    (access_dir error_dir access_out error_out : string) (w : world) :
  matching (files w) (path_join access_dir "*.log.*") = [] ->
  matching (<[access_out := Csv (AccessTable [])]> (files w))
    (path_join error_dir "*.log") = [] ->
  parse_all_files csv_text access_dir error_dir access_out error_out w
  = if writable access_out
    then
      if writable error_out
      then (mk_world
              (<[error_out := Csv (ErrorTable [])]>
                 (<[access_out := Csv (AccessTable [])]> (files w)))
              (log w ++ [AccessLogsExported access_out]
               ++ [ErrorLogsExported error_out]),
            OK tt)
      else (mk_world (<[access_out := Csv (AccessTable [])]> (files w))
              (log w ++ [AccessLogsExported access_out]),
            Raise OSError)
    else (w, Raise OSError).
Proof.
  intros Ha He. unfold parse_all_files.
  unfold mbind at 1, M_bind at 1, glob at 1. rewrite Ha.
  unfold mbind at 1, M_bind at 1. cbn [access_loop for_each_M].
  unfold mret at 1, M_ret at 1.
  unfold mbind at 1, M_bind at 1, to_csv at 1.
  destruct (writable access_out); [|reflexivity].
  unfold mbind at 1, M_bind at 1, logger_info at 1.
  unfold mbind at 1, M_bind at 1, glob at 1. cbn [files log]. rewrite He.
  unfold mbind at 1, M_bind at 1. cbn [error_loop for_each_M].
  unfold mret at 1, M_ret at 1.
  unfold mbind, M_bind, to_csv, logger_info. cbn [files log].
  destruct (writable error_out); [|reflexivity].
  cbn [files log]. now rewrite <- app_assoc.
Qed.

End PipelineExtra.

Section PipelineExtraSamples.

#[local] Existing Instance Pandas.plain.
#[local] Existing Instance every_path.

Lemma aggregation_of_all_files_witness :
  exists w' df,
    access_loop blank_csv
      ["logs/access/access.log.2"; "logs/access/access.log.1";
       "logs/access/access.log.2"] two_files
    = (w', OK df)
    /\ AccessLog.row_ip <$> df = ["x"; "x"; "y"; "x"].
Proof.
  set (L1 := Py.readlines
               (sample_access +:+ AccessLog.shaped_line "y" "/" "200" EOL)).
  set (L2 := Py.readlines sample_access).
  destruct (AccessLog.parse_lines L1) as [[df1 e1]|] eqn:P1;
    [|vm_compute in P1; discriminate].
  destruct (AccessLog.parse_lines L2) as [[df2 e2]|] eqn:P2;
    [|vm_compute in P2; discriminate].
  destruct (proj1 (aggregation_of_all_files blank_csv two_files
                     ["logs/access/access.log.2"; "logs/access/access.log.1";
                      "logs/access/access.log.2"])
              [df2; df1; df2]) as (w' & Hloop & _).
  { repeat constructor.
    - exists L2, e2. split; [vm_compute; reflexivity | exact P2].
    - exists L1, e1. split; [vm_compute; reflexivity | exact P1].
    - exists L2, e2. split; [vm_compute; reflexivity | exact P2]. }
  exists w'. eexists. split; [exact Hloop|].
  vm_compute in P1. vm_compute in P2.
  injection P1 as <- _. injection P2 as <- _. reflexivity.
Defined.

Lemma failed_run_writes_no_error_export_witness :
  exists w' t,
    snd (parse_all_files blank_csv "logs/access" "logs/error"
           "out/access.csv" "out/error.csv" unfit_error_log)
    = Raise IndexError
    /\ w' = fst (parse_all_files blank_csv "logs/access" "logs/error"
                   "out/access.csv" "out/error.csv" unfit_error_log)
    /\ files w' !! "out/access.csv" = Some (Csv t)
    /\ files w' !! "out/error.csv" = None.
Proof.
  set (run := parse_all_files blank_csv "logs/access" "logs/error"
                "out/access.csv" "out/error.csv" unfit_error_log).
  assert (Hs : snd run = Raise IndexError) by (vm_compute; reflexivity).
  assert (Hrun : run = (fst run, Raise IndexError))
    by (rewrite <- Hs; apply surjective_pairing).
  destruct (failed_run_writes_no_error_export blank_csv "logs/access"
              "logs/error" "out/access.csv" "out/error.csv" unfit_error_log
              (fst run) IndexError Hrun)
    as [Hsame | (ab & w1 & _ & Hfiles)].
  - exfalso.
    assert (Hout : files (fst run) !! "out/access.csv"
                   = files unfit_error_log !! "out/access.csv")
      by now rewrite Hsame.
    vm_compute in Hout. discriminate.
  - exists (fst run), (AccessTable ab).
    split; [exact Hs|]. split; [reflexivity|].
    rewrite Hfiles. split; [apply lookup_insert_eq|].
    rewrite lookup_insert_ne by discriminate. vm_compute. reflexivity.
Defined.

Lemma no_files_empty_exports_witness :
  (exists w',
     parse_all_files blank_csv "logs/access" "logs/error" "out/access.csv"
       "out/error.csv" (mk_world ∅ [])
     = (w', OK tt)
     /\ files w' !! "out/access.csv" = Some (Csv (AccessTable []))
     /\ files w' !! "out/error.csv" = Some (Csv (ErrorTable []))) /\
  @parse_all_files blank_csv Pandas.plain no_missing_directory
    "logs/access" "logs/error" "missing/access.csv" "out/error.csv"
    (mk_world ∅ [])
  = (mk_world ∅ [], Raise OSError).
Proof.
  split.
  - pose proof (no_files_empty_exports blank_csv "logs/access" "logs/error"
                  "out/access.csv" "out/error.csv" (mk_world ∅ [])) as Hrun.
    unfold writable, every_path in Hrun. cbv beta iota in Hrun.
    eexists. split; [apply Hrun; vm_compute; reflexivity|].
    cbn [files]. split.
    + rewrite lookup_insert_ne by discriminate. apply lookup_insert_eq.
    + apply lookup_insert_eq.
  - pose proof (@no_files_empty_exports blank_csv Pandas.plain
                  no_missing_directory "logs/access" "logs/error"
                  "missing/access.csv" "out/error.csv" (mk_world ∅ []))
      as Hrun.
    change (@writable no_missing_directory "missing/access.csv")
      with false in Hrun.
    apply Hrun; vm_compute; reflexivity.
Defined.

End PipelineExtraSamples.

(** ** The patterns of the two directories *)

Lemma string_app_assoc (a b c : string) :
  (a +:+ b) +:+ c = a +:+ (b +:+ c).
Proof.
  induction a as [|x a IH]; [reflexivity|].
  change (String x ((a +:+ b) +:+ c) = String x (a +:+ (b +:+ c))).
  now rewrite IH.
Qed.

Lemma wild_star (pat s : string) :
  wild (String "*" pat) s
  = wild pat s
    || match s with
       | String c s' => negb (Ascii.eqb c "/") && wild (String "*" pat) s'
       | EmptyString => false
       end.
Proof. destruct s; reflexivity. Qed.

(** A pattern that ends in [Q] matches only strings a suffix of which
    matches [Q]. *)
Lemma wild_suffix (D Q : string) :
  forall s, wild (D +:+ Q) s = true ->
            exists s1 s2, s = s1 +:+ s2 /\ wild Q s2 = true.
Proof.
  induction D as [|p D IH]; intros s.
  - intros H. exists "", s. split; [reflexivity | exact H].
  - change (String p D +:+ Q) with (String p (D +:+ Q)).
    destruct (Ascii.eqb p "*") eqn:Ep.
    + apply Ascii.eqb_eq in Ep. subst p.
      induction s as [|c s IHs]; rewrite wild_star.
      * rewrite orb_false_r. intros H.
        destruct (IH _ H) as (s1 & s2 & -> & H2). now exists s1, s2.
      * intros [H | H]%orb_prop.
        -- destruct (IH _ H) as (s1 & s2 & -> & H2). now exists s1, s2.
        -- apply andb_prop in H as [_ H].
           destruct (IHs H) as (s1 & s2 & -> & H2).
           now exists (String c s1), s2.
    + simpl. rewrite Ep. destruct s as [|c s]; [discriminate|].
      intros [_ H]%andb_prop.
      destruct (IH _ H) as (s1 & s2 & -> & H2).
      now exists (String c s1), s2.
Qed.

(** A pattern that starts with ordinary characters matches only strings
    that start with them. *)
Lemma wild_literal (L Q : string) :
  forallb (fun c => negb (Ascii.eqb c "*") && negb (Ascii.eqb c "?"))
    (list_ascii_of_string L) = true ->
  forall s, wild (L +:+ Q) s = true ->
            exists s', s = L +:+ s' /\ wild Q s' = true.
Proof.
  induction L as [|p L IH]; intros HL s.
  - intros H. now exists s.
  - simpl in HL. apply andb_prop in HL as [Hp HL].
    apply andb_prop in Hp as [Hstar Hq].
    apply negb_true_iff in Hstar, Hq.
    change (String p L +:+ Q) with (String p (L +:+ Q)).
    simpl. rewrite Hstar, Hq. destruct s as [|c s]; [discriminate|].
    intros [Hc H]%andb_prop. apply Ascii.eqb_eq in Hc. subst c.
    destruct (IH HL _ H) as (s' & -> & H').
    now exists s'.
Qed.

Lemma wild_nil (s : string) : wild "" s = true -> s = "".
Proof. simpl. apply String.eqb_eq. Qed.

Lemma path_join_pattern (dir pat : string) :
  Py.startswith "/" pat = false ->
  exists D, path_join dir pat = D +:+ pat.
Proof.
  intros H. unfold path_join. rewrite H.
  destruct (String.eqb dir "" || Py.startswith "/" (String.rev dir)).
  - now exists dir.
  - exists (dir +:+ "/"). now rewrite string_app_assoc.
Qed.

Lemma matching_elem (fs : gmap string file) (pathname path : string) :
  path ∈ matching fs pathname ->
  wild pathname path = true /\ is_Some (fs !! path).
Proof.
  unfold matching. rewrite list_elem_of_In, filter_In, <- list_elem_of_In.
  intros [Hin Hw]. apply andb_prop in Hw as [Hw _]. split; [exact Hw|].
  apply list_elem_of_fmap in Hin as [[k v] [-> Hkv]].
  apply elem_of_map_to_list in Hkv. now exists v.
Qed.

(** X9.  The files discovered are files of the world.  Those discovered
    for the access logs have [.log.] in their path, so a log that has not
    been rotated, such as [access.log], is never parsed; those discovered
    for the error logs end in [.log], so a rotated error log, such as
    [error.log.1], is never parsed. *)
Theorem discovered_names (fs : gmap string file) (dir path : string) :
  (path ∈ matching fs (path_join dir "*.log.*") ->
   is_Some (fs !! path) /\ exists a b, path = a +:+ ".log." +:+ b) /\
  (path ∈ matching fs (path_join dir "*.log") ->
   is_Some (fs !! path) /\ exists a, path = a +:+ ".log").
Proof.
  split; intros [Hw Hin]%matching_elem; (split; [exact Hin|]).
  - destruct (path_join_pattern dir "*.log.*" eq_refl) as (D & HD).
    rewrite HD in Hw.
    change (D +:+ "*.log.*") with (D +:+ ("*" +:+ ".log.*")) in Hw.
    rewrite <- string_app_assoc in Hw.
    destruct (wild_suffix _ _ _ Hw) as (s1 & s2 & -> & H2).
    destruct (wild_literal ".log." "*" eq_refl _ H2) as (b & -> & _).
    now exists s1, b.
  - destruct (path_join_pattern dir "*.log" eq_refl) as (D & HD).
    rewrite HD in Hw.
    change (D +:+ "*.log") with (D +:+ ("*" +:+ ".log")) in Hw.
    rewrite <- string_app_assoc in Hw.
    destruct (wild_suffix _ _ _ Hw) as (s1 & s2 & -> & H2).
    change ".log" with (".log" +:+ "") in H2.
    destruct (wild_literal ".log" "" eq_refl _ H2) as (b & -> & Hb).
    apply wild_nil in Hb. subst b. now exists s1.
Qed.

Lemma discovered_names_witness :
  (is_Some (files two_files !! "logs/access/access.log.1") /\
   exists a b, "logs/access/access.log.1" = a +:+ ".log." +:+ b) /\
  (is_Some (files two_files !! "logs/error/error.log") /\
   exists a, "logs/error/error.log" = a +:+ ".log").
Proof.
  split.
  - apply (proj1 (discovered_names (files two_files) "logs/access"
                    "logs/access/access.log.1")).
    rewrite list_elem_of_In. vm_compute. auto.
  - apply (proj2 (discovered_names (files two_files) "logs/error"
                    "logs/error/error.log")).
    rewrite list_elem_of_In. vm_compute. auto.
Defined.

(** ** The collector, file by file *)

Module CollectorExtra.
Import Collector.

Section RemoteExtra.

Variable connect : string -> string -> string -> string -> result unit.
Variable listdir : string -> result (list string).
Variable remote_read : string -> result string.
Variable gunzip : string -> result string.

(** [decompress_files], by cases on the file and on the decoder. *)
Lemma decompress_files_cases (path : string) (s : state) :
  let out := Py.replace ".gz" "" path in
  decompress_files gunzip path s
  = match local_files s !! path with
    | None =>
        (mk_state (files s) (files_downloaded s) (local_files s)
           (log s ++ [NotFoundForDecompression path])
           (sftp_closed s) (client_closed s), Normal tt)
    | Some data =>
        match gunzip data with
        | OK plain =>
            (mk_state (files s) (files_downloaded s)
               (delete path (<[out := plain]> (<[out := ""]> (local_files s))))
               (log s ++ [Decompressed path out])
               (sftp_closed s) (client_closed s), Normal tt)
        | Raise e =>
            (mk_state (files s) (files_downloaded s)
               (<[out := ""]> (local_files s))
               (log s ++ [match e with
                          | FileNotFoundError => NotFoundForDecompression path
                          | BadGzipFile => BadGzip path
                          | _ => ErrorWhileDecompressing path e
                          end])
               (sftp_closed s) (client_closed s), Normal tt)
        end
    end.
Proof.
  intros out. subst out.
  unfold decompress_files, try_except, mbind, C_bind, read_local,
    update_local, of_result, logger.
  destruct (local_files s !! path) as [data|]; [|reflexivity].
  cbn [local_files files files_downloaded log sftp_closed client_closed].
  destruct (gunzip data) as [plain|e]; [reflexivity|].
  destruct e; reflexivity.
Qed.

(** X10.  A valid archive is decompressed and removed: afterwards the
    plain file holds the decoded payload, the archive is gone, every other
    local file is as before, and the success is logged. *)
Theorem decompress_valid_archive (path data plain : string) (s : state) :
  local_files s !! path = Some data ->
  gunzip data = OK plain ->
  Py.replace ".gz" "" path <> path ->
  exists s',
    decompress_files gunzip path s = (s', Normal tt) /\
    local_files s' !! Py.replace ".gz" "" path = Some plain /\
    local_files s' !! path = None /\
    (forall other,
       other <> path -> other <> Py.replace ".gz" "" path ->
       local_files s' !! other = local_files s !! other) /\
    log s' = log s ++ [Decompressed path (Py.replace ".gz" "" path)].
Proof.
  intros Hdata Hgz Hne. eexists.
  rewrite decompress_files_cases, Hdata, Hgz.
  split; [reflexivity|]. cbn [local_files log].
  split; [|split; [|split]].
  - rewrite lookup_delete_ne by congruence. apply lookup_insert_eq.
  - apply lookup_delete_eq.
  - intros other H1 H2.
    rewrite lookup_delete_ne by congruence.
    now rewrite !lookup_insert_ne by congruence.
  - reflexivity.
Qed.

(** X11.  [decompress_files] never raises: whatever the path holds, it
    ends normally after logging exactly one message, and changes neither
    the two counters of the caller nor the connections.  A missing file
    changes no local file; an archive the decoder rejects is kept. *)
Theorem decompress_never_raises (path : string) (s : state) :
  exists s',
    decompress_files gunzip path s = (s', Normal tt) /\
    length (log s') = S (length (log s)) /\
    files s' = files s /\ files_downloaded s' = files_downloaded s /\
    sftp_closed s' = sftp_closed s /\ client_closed s' = client_closed s /\
    (local_files s !! path = None -> local_files s' = local_files s) /\
    (forall data e,
       local_files s !! path = Some data -> gunzip data = Raise e ->
       Py.replace ".gz" "" path <> path ->
       local_files s' !! path = Some data).
Proof.
  rewrite decompress_files_cases.
  destruct (local_files s !! path) as [data|] eqn:Hdata.
  - destruct (gunzip data) as [plain|e] eqn:Hgz.
    + eexists. split; [reflexivity|]. cbn. rewrite length_app. simpl.
      repeat split; try lia; try discriminate.
      intros d e' [= <-] Hr. rewrite Hgz in Hr. discriminate.
    + eexists. split; [reflexivity|]. cbn. rewrite length_app. simpl.
      repeat split; try lia; try discriminate.
      intros d e' [= <-] _ Hne.
      rewrite lookup_insert_ne by congruence. exact Hdata.
  - eexists. split; [reflexivity|]. cbn. rewrite length_app. simpl.
    repeat split; try lia; try discriminate.
Qed.

(** The caller's view of [decompress_files]. *)
Lemma decompress_keeps (path : string) (s : state) :
  exists s',
    decompress_files gunzip path s = (s', Normal tt) /\
    files s' = files s /\ files_downloaded s' = files_downloaded s /\
    sftp_closed s' = sftp_closed s /\ client_closed s' = client_closed s.
Proof.
  rewrite decompress_files_cases.
  destruct (local_files s !! path) as [data|];
    [destruct (gunzip data)|]; eexists; repeat split.
Qed.

Ltac run_C :=
  unfold mbind, C_bind, mret, C_ret, logger, sftp_get, of_result,
    update_local, get_files_downloaded, set_files_downloaded, get_files,
    set_files, when;
  cbn [files files_downloaded local_files log sftp_closed client_closed].

(** One turn of the loop, seen from the counters and the connections. *)
Lemma download_one_counts
    (remote_log_path local_access local_error file : string) (s : state)
    (n : Z) :
  files_downloaded s = Some n ->
  exists s',
    download_one remote_read gunzip remote_log_path local_access local_error
      file s = (s', Normal tt) /\
    files_downloaded s'
    = Some (n + if counted remote_read remote_log_path file then 1 else 0) /\
    files s' = files s /\
    sftp_closed s' = sftp_closed s /\ client_closed s' = client_closed s.
Proof.
  intros Hn. unfold download_one, try_except, counted. run_C. rewrite Hn.
  destruct (Py.startswith "access" file) eqn:Ea; cbn [orb].
  - destruct (remote_read (remote_log_path +:+ "/" +:+ file)) as [data|e];
      cbn [is_OK].
    + run_C. destruct (Py.endswith ".gz" file).
      * match goal with
        | |- context [decompress_files gunzip ?p ?s0] =>
            destruct (decompress_keeps p s0) as (s' & -> & H1 & H2 & H3 & H4)
        end.
        exists s'. cbn in *. rewrite H1, H2, H3, H4. repeat split.
      * eexists. repeat split.
    + destruct e; eexists; repeat split; cbn; f_equal; lia.
  - destruct (Py.startswith "error" file) eqn:Ee.
    + destruct (remote_read (remote_log_path +:+ "/" +:+ file)) as [data|e];
        cbn [is_OK].
      * run_C. destruct (Py.endswith ".gz" file).
        -- match goal with
           | |- context [decompress_files gunzip ?p ?s0] =>
               destruct (decompress_keeps p s0) as (s' & -> & H1 & H2 & H3 & H4)
           end.
           exists s'. cbn in *. rewrite H1, H2, H3, H4. repeat split.
        -- eexists. repeat split.
      * destruct e; eexists; repeat split; cbn; f_equal; lia.
    + run_C. destruct (Py.endswith ".gz" file); eexists; repeat split.
Qed.

(** X12.  A turn of the download loop never raises, whatever the remote
    host answers: it ends normally, leaves the list of files and the
    connections as they are, and adds one to the counter exactly when the
    transfer did not raise or the file was not transferred at all. *)
Theorem download_one_never_raises
    (remote_log_path local_access local_error file : string) (s : state) :
  exists s',
    download_one remote_read gunzip remote_log_path local_access local_error
      file s = (s', Normal tt) /\
    files s' = files s /\
    sftp_closed s' = sftp_closed s /\ client_closed s' = client_closed s /\
    forall n,
      files_downloaded s = Some n ->
      files_downloaded s'
      = Some (n + if counted remote_read remote_log_path file then 1 else 0).
Proof.
  destruct (files_downloaded s) as [n|] eqn:Hn.
  - destruct (download_one_counts remote_log_path local_access local_error
                file s n Hn) as (s' & Hrun & Hc & Hf & H1 & H2).
    exists s'. repeat split; try assumption.
    intros m [= <-]. exact Hc.
  - unfold download_one, try_except. run_C. rewrite Hn.
    destruct (Py.startswith "access" file);
      [|destruct (Py.startswith "error" file)];
      try destruct (remote_read (remote_log_path +:+ "/" +:+ file))
        as [data|[]];
      eexists; (split; [reflexivity|]); cbn; repeat split; discriminate.
Qed.

(** The loop over the files. *)
Lemma download_loop_counts
    (remote_log_path local_access local_error : string) (fs : list string) :
  forall (s : state) (n : Z),
    files_downloaded s = Some n ->
    exists s',
      for_each_C (download_one remote_read gunzip remote_log_path
                    local_access local_error) fs s = (s', Normal tt) /\
      files_downloaded s'
      = Some (n + Z.of_nat
                    (length (List.filter (counted remote_read remote_log_path)
                               fs))) /\
      files s' = files s /\
      sftp_closed s' = sftp_closed s /\ client_closed s' = client_closed s.
Proof.
  induction fs as [|f fs IH]; intros s n Hn.
  - exists s. cbn. rewrite Z.add_0_r. repeat split. exact Hn.
  - cbn [for_each_C]. unfold mbind at 1, C_bind at 1.
    destruct (download_one_counts remote_log_path local_access local_error
                f s n Hn) as (s1 & -> & Hc & Hf & H1 & H2).
    destruct (IH s1 _ Hc) as (s' & -> & Hc' & Hf' & H1' & H2').
    exists s'. split; [reflexivity|].
    rewrite Hc', Hf', H1', H2', Hf, H1, H2. repeat split.
    f_equal. cbn [List.filter].
    destruct (counted remote_read remote_log_path f); cbn [length]; lia.
Qed.

(** X13.  When the connection and the listing succeed, [log_download]
    returns normally with both connections closed; the counter is the
    number of listed files whose transfer did not raise or that were not
    transferred at all, and the last two messages report it: all files when
    it equals the length of the listing, only some otherwise. *)
Theorem log_download_returns
    (host username password port remote_log_path local_access local_error
       : string) (fs : list string) (local : gmap string string) :
  connect host username password port = OK tt ->
  listdir remote_log_path = OK fs ->
  let k := Z.of_nat (length (List.filter (counted remote_read remote_log_path)
                               fs)) in
  let n := Z.of_nat (length fs) in
  exists s' earlier,
    log_download connect listdir remote_read gunzip host username password
      port remote_log_path local_access local_error (entry local)
    = (s', Normal tt) /\
    sftp_closed s' = true /\ client_closed s' = true /\
    files_downloaded s' = Some k /\ files s' = Some fs /\ k <= n /\
    log s' = earlier
             ++ [DownloadedCount k;
                 if k <? n then OnlySomeDownloaded k n else AllDownloaded k].
Proof.
  intros Hconnect Hlist k n.
  assert (Hk : k <= n).
  { subst k n. apply inj_le. clear. induction fs as [|f fs IH]; [simpl; lia|].
    cbn [List.filter]. destruct (counted remote_read remote_log_path f);
      cbn [length]; lia. }
  unfold log_download. unfold mbind at 1, C_bind at 1, of_result at 1.
  rewrite Hconnect. unfold try_finally.
  unfold mbind at 1, C_bind at 1, try_except at 1.
  unfold mbind at 1, C_bind at 1, of_result at 1. rewrite Hlist.
  run_C. unfold entry.
  cbn [files files_downloaded local_files log sftp_closed client_closed].
  match goal with
  | |- context [for_each_C ?body fs ?s0] =>
      destruct (download_loop_counts remote_log_path local_access local_error
                  fs s0 0 eq_refl) as (s1 & -> & Hc & Hf & H1 & H2)
  end.
  rewrite Z.add_0_l in Hc. fold k in Hc.
  destruct s1 as [f1 d1 l1 g1 c1 c2].
  cbn [files files_downloaded sftp_closed client_closed] in Hc, Hf, H1, H2.
  subst f1 d1 c1 c2.
  unfold cleanup. run_C. fold n.
  destruct (k <? n) eqn:Hlt.
  - cbn -[Z.eqb Z.of_nat]. eexists. exists g1. split; [reflexivity|]. cbn.
    rewrite <- app_assoc. repeat split. exact Hk.
  - assert (Heq : (k =? n) = true)
      by (apply Z.eqb_eq; apply Z.ltb_ge in Hlt; lia).
    cbn -[Z.eqb Z.of_nat]. fold n. rewrite Heq.
    eexists. exists g1. split; [reflexivity|]. cbn.
    rewrite <- app_assoc. repeat split. exact Hk.
Qed.

(** X14.  A listed file whose name starts with neither [access] nor
    [error] is not transferred and not decompressed, even when its name
    ends in [.gz], and yet it is counted as downloaded. *)
Theorem unclassified_file_is_counted
    (remote_log_path local_access local_error file : string) (s : state)
    (n : Z) :
  Py.startswith "access" file = false ->
  Py.startswith "error" file = false ->
  files_downloaded s = Some n ->
  download_one remote_read gunzip remote_log_path local_access local_error
    file s
  = (mk_state (files s) (Some (n + 1)) (local_files s)
       (log s ++ [TryingToDownload (remote_log_path +:+ "/" +:+ file)])
       (sftp_closed s) (client_closed s),
     Normal tt).
Proof.
  intros Ha He Hn. unfold download_one, try_except. run_C.
  rewrite Ha, He, Hn. run_C.
  destruct (Py.endswith ".gz" file); reflexivity.
Qed.

(** X15.  An exception of the listing other than FileNotFoundError is not
    logged and does not reach the caller: the cleanup reads the counter,
    which has no value yet, and the call ends with UnboundLocalError, both
    connections still open. *)
Theorem listing_error_is_masked
    (host username password port remote_log_path local_access local_error
       : string) (local : gmap string string) (e : exn) :
  connect host username password port = OK tt ->
  listdir remote_log_path = Raise e ->
  e <> FileNotFoundError ->
  log_download connect listdir remote_read gunzip host username password
    port remote_log_path local_access local_error (entry local)
  = (entry local, Raised UnboundLocalError).
Proof.
  intros Hconnect Hlist He.
  unfold log_download, mbind, C_bind, of_result, try_finally, try_except.
  rewrite Hconnect, Hlist.
  destruct e; try reflexivity. congruence.
Qed.

End RemoteExtra.

Lemma decompress_valid_archive_witness :
  exists s',
    decompress_files sample_gunzip "logs/error/error.log.1.gz"
      (entry sample_local) = (s', Normal tt)
    /\ local_files s' !! "logs/error/error.log.1" = Some "plain"
    /\ local_files s' !! "logs/error/error.log.1.gz" = None.
Proof.
  destruct (decompress_valid_archive sample_gunzip
              "logs/error/error.log.1.gz" "zipped" "plain"
              (entry sample_local) eq_refl eq_refl
              ltac:(vm_compute; discriminate))
    as (s' & Hrun & Hplain & Hgone & _).
  exists s'. split; [exact Hrun|]. split; [exact Hplain | exact Hgone].
Defined.

Lemma decompress_never_raises_witness :
  exists s',
    decompress_files sample_gunzip "logs/access/access.log.3.gz"
      (entry sample_local) = (s', Normal tt)
    /\ local_files s' !! "logs/access/access.log.3.gz" = Some "junk".
Proof.
  destruct (decompress_never_raises sample_gunzip
              "logs/access/access.log.3.gz" (entry sample_local))
    as (s' & Hrun & _ & _ & _ & _ & _ & _ & Hkept).
  exists s'. split; [exact Hrun|].
  exact (Hkept "junk" BadGzipFile eq_refl eq_refl
           ltac:(vm_compute; discriminate)).
Defined.

Lemma download_one_never_raises_witness :
  exists s',
    download_one sample_read sample_gunzip "/var/log/nginx" "logs/access"
      "logs/error" "access.log.2.gz"
      (mk_state None (Some 2) sample_local [] false false)
    = (s', Normal tt)
    /\ files_downloaded s' = Some (2 + 0).
Proof.
  destruct (download_one_never_raises sample_read sample_gunzip
              "/var/log/nginx" "logs/access" "logs/error" "access.log.2.gz"
              (mk_state None (Some 2) sample_local [] false false))
    as (s' & Hrun & _ & _ & _ & Hcount).
  exists s'. split; [exact Hrun|]. exact (Hcount 2 eq_refl).
Defined.

Lemma log_download_returns_witness :
  exists s' earlier,
    log_download sample_connect sample_listdir sample_read sample_gunzip
      "host" "user" "secret" "22" "/var/log/nginx" "logs/access" "logs/error"
      (entry ∅)
    = (s', Normal tt)
    /\ sftp_closed s' = true /\ client_closed s' = true
    /\ log s' = earlier ++ [DownloadedCount 3; OnlySomeDownloaded 3 4].
Proof.
  destruct (log_download_returns sample_connect sample_listdir sample_read
              sample_gunzip "host" "user" "secret" "22" "/var/log/nginx"
              "logs/access" "logs/error" _ ∅ eq_refl eq_refl)
    as (s' & earlier & Hrun & H1 & H2 & _ & _ & _ & Hlog).
  exists s', earlier. repeat split; assumption.
Defined.

Lemma unclassified_file_is_counted_witness :
  download_one sample_read sample_gunzip "/var/log/nginx" "logs/access"
    "logs/error" "notes.txt.gz"
    (mk_state None (Some 2) sample_local [] false false)
  = (mk_state None (Some 3) sample_local
       [TryingToDownload "/var/log/nginx/notes.txt.gz"] false false,
     Normal tt).
Proof.
  exact (unclassified_file_is_counted sample_read sample_gunzip
           "/var/log/nginx" "logs/access" "logs/error" "notes.txt.gz"
           (mk_state None (Some 2) sample_local [] false false) 2
           eq_refl eq_refl eq_refl).
Defined.

Lemma listing_error_is_masked_witness :
  log_download sample_connect sample_listdir sample_read sample_gunzip
    "host" "user" "secret" "22" "/root" "logs/access" "logs/error" (entry ∅)
  = (entry ∅, Raised UnboundLocalError).
Proof.
  apply (listing_error_is_masked sample_connect sample_listdir sample_read
           sample_gunzip "host" "user" "secret" "22" "/root" "logs/access"
           "logs/error" ∅ PermissionError eq_refl eq_refl).
  discriminate.
Defined.

End CollectorExtra.

(** ** The two tokenizers on a path *)

Section FileExtra.

Variable csv_text : table -> string.

Context `{pandas : Pandas.Library} `{disk : Writable}.

(** X16.  [parse_access_log_file] on a path: a path with no file raises
    FileNotFoundError; a call that raises leaves the world as it was, with
    nothing logged; a call that returns leaves the files as they were,
    gives one row per line of the file and logs exactly one message, which
    carries the count read off the rows. *)
Theorem access_file_outcomes (path : string) (w : world) :
  (files w !! path = None ->
   parse_access_log_file csv_text path w = (w, Raise FileNotFoundError)) /\
  (forall w' e,
     parse_access_log_file csv_text path w = (w', Raise e) -> w' = w) /\
  (forall w' df,
     parse_access_log_file csv_text path w = (w', OK df) ->
     files w' = files w /\
     log w' = log w ++ [FileAdded path (AccessShape.frame_units df)] /\
     exists lines,
       file_lines csv_text (files w !! path) = OK lines /\
       length df = length lines).
Proof.
  rewrite parse_access_log_file_eq. split; [|split].
  - intros ->. reflexivity.
  - intros w' e.
    destruct (file_lines csv_text (files w !! path)) as [lines|e0];
      [|now intros [= <- _]].
    destruct (AccessLog.parse_lines lines) as [[df errors]|e0];
      [discriminate | now intros [= <- _]].
  - intros w' df.
    destruct (file_lines csv_text (files w !! path)) as [lines|e0];
      [|discriminate].
    destruct (AccessLog.parse_lines lines) as [[df' errors]|e0] eqn:E;
      [|discriminate].
    intros [= <- <-].
    destruct (AccessFacts.parse_lines_OK _ _ _ E) as (Hall & Hlen & ->).
    rewrite (AccessExtra.total_units_frame _ _ Hall).
    split; [reflexivity|]. split; [reflexivity|].
    exists lines. auto.
Qed.

(** X17.  [parse_error_log] on a path: a path with no file raises
    FileNotFoundError; a call that raises leaves the world as it was; a
    call that returns leaves the files as they were, gives one row per line
    of the file and logs exactly one message. *)
Theorem error_file_outcomes (path : string) (w : world) :
  (files w !! path = None ->
   parse_error_log csv_text path w = (w, Raise FileNotFoundError)) /\
  (forall w' e,
     parse_error_log csv_text path w = (w', Raise e) -> w' = w) /\
  (forall w' df,
     parse_error_log csv_text path w = (w', OK df) ->
     files w' = files w /\
     log w' = log w ++ [ErrorFileAdded path] /\
     exists lines,
       file_lines csv_text (files w !! path) = OK lines /\
       length df = length lines).
Proof.
  rewrite parse_error_log_eq. split; [|split].
  - intros ->. reflexivity.
  - intros w' e.
    destruct (file_lines csv_text (files w !! path)) as [lines|e0];
      [|now intros [= <- _]].
    destruct (ErrorLog.parse_lines lines) as [df|e0];
      [discriminate | now intros [= <- _]].
  - intros w' df.
    destruct (file_lines csv_text (files w !! path)) as [lines|e0];
      [|discriminate].
    destruct (ErrorLog.parse_lines lines) as [df'|e0] eqn:E; [|discriminate].
    intros [= <- <-].
    destruct (ErrorFacts.error_parse_lines_OK _ _ E) as (Hall & Hlen).
    split; [reflexivity|]. split; [reflexivity|].
    exists lines. auto.
Qed.

End FileExtra.

Section FileSamples.

#[local] Existing Instance Pandas.plain.
#[local] Existing Instance every_path.

Lemma access_file_outcomes_witness :
  exists w' df,
    parse_access_log_file blank_csv "logs/access/access.log.1" two_files
    = (w', OK df)
    /\ files w' = files two_files
    /\ log w' = [FileAdded "logs/access/access.log.1" 0]
    /\ length df = 2%nat.
Proof.
  set (run := parse_access_log_file blank_csv "logs/access/access.log.1"
                two_files).
  assert (Hs : is_OK (snd run) = true) by (vm_compute; reflexivity).
  destruct run as [w' [df|e]] eqn:Hrun; [|discriminate].
  destruct (proj2 (proj2 (access_file_outcomes blank_csv
                            "logs/access/access.log.1" two_files))
              w' df Hrun) as (Hfiles & Hlog & lines & Hopen & Hlen).
  exists w', df. split; [reflexivity|]. split; [exact Hfiles|].
  vm_compute in Hrun. injection Hrun as <- <-. split; reflexivity.
Defined.

Lemma error_file_outcomes_witness :
  parse_error_log blank_csv "logs/error/error.log.1" two_files
  = (two_files, Raise FileNotFoundError).
Proof.
  apply (proj1 (error_file_outcomes blank_csv "logs/error/error.log.1"
                  two_files)).
  vm_compute. reflexivity.
Defined.

End FileSamples.

(** ** Stripping *)

Section Strip.

Variable p : ascii -> bool.

Lemma string_app_nil_r (s : string) : s +:+ "" = s.
Proof.
  induction s as [|c s IH]; [reflexivity|].
  change (String c (s +:+ "") = String c s). now rewrite IH.
Qed.

Lemma rev_app_app (s1 s2 : string) :
  String.rev_app s1 s2 = String.rev s1 +:+ s2.
Proof.
  unfold String.rev. revert s2.
  induction s1 as [|c s1 IH]; intros s2; [reflexivity|].
  cbn [String.rev_app]. rewrite IH, (IH (String c "")).
  now rewrite string_app_assoc.
Qed.

Lemma rev_app_rev_app (s1 s2 s3 : string) :
  String.rev_app (String.rev_app s1 s2) s3 = String.rev_app s2 (s1 +:+ s3).
Proof.
  revert s2 s3. induction s1 as [|c s1 IH]; intros s2 s3; [reflexivity|].
  cbn [String.rev_app]. now rewrite IH.
Qed.

Lemma rev_involutive (s : string) : String.rev (String.rev s) = s.
Proof.
  unfold String.rev. rewrite rev_app_rev_app. cbn [String.rev_app].
  apply string_app_nil_r.
Qed.

Lemma rev_snoc (s : string) (c : ascii) :
  String.rev (s +:+ String c "") = String c (String.rev s).
Proof.
  rewrite <- (rev_involutive (String c (String.rev s))).
  f_equal. unfold String.rev at 1. cbn [String.rev_app].
  rewrite rev_app_app, rev_involutive. reflexivity.
Qed.

Lemma lstrip_idem (s : string) : Py.lstrip p (Py.lstrip p s) = Py.lstrip p s.
Proof.
  induction s as [|c s IH]; [reflexivity|].
  simpl. destruct (p c) eqn:E; [exact IH|]. simpl. now rewrite E.
Qed.

Lemma lstrip_head (s : string) :
  Py.lstrip p s = "" \/
  exists c t, Py.lstrip p s = String c t /\ p c = false.
Proof.
  induction s as [|c s IH]; [now left|].
  simpl. destruct (p c) eqn:E; [exact IH|]. right. now exists c, s.
Qed.

Lemma lstrip_snoc (s : string) (c : ascii) :
  p c = false ->
  Py.lstrip p (s +:+ String c "") = Py.lstrip p s +:+ String c "".
Proof.
  intros Hc. induction s as [|d s IH].
  - simpl. now rewrite Hc.
  - change (String d s +:+ String c "") with (String d (s +:+ String c "")).
    simpl. destruct (p d); [exact IH | reflexivity].
Qed.

Lemma rstrip_cons_keep (c : ascii) (s : string) :
  p c = false -> Py.rstrip p (String c s) = String c (Py.rstrip p s).
Proof.
  intros Hc. unfold Py.rstrip.
  unfold String.rev at 2. cbn [String.rev_app]. rewrite rev_app_app.
  rewrite (lstrip_snoc _ _ Hc). apply rev_snoc.
Qed.

Lemma rstrip_idem (s : string) : Py.rstrip p (Py.rstrip p s) = Py.rstrip p s.
Proof.
  unfold Py.rstrip. now rewrite rev_involutive, lstrip_idem.
Qed.

(** Stripping both ends a second time changes nothing. *)
Lemma strip_both_idem (s : string) :
  Py.rstrip p (Py.lstrip p (Py.rstrip p (Py.lstrip p s)))
  = Py.rstrip p (Py.lstrip p s).
Proof.
  destruct (lstrip_head s) as [-> | (c & t & -> & Hc)]; [reflexivity|].
  rewrite (rstrip_cons_keep _ _ Hc). simpl. rewrite Hc.
  rewrite (rstrip_cons_keep _ _ Hc). now rewrite rstrip_idem.
Qed.

End Strip.

Section StrippedRows.

Context `{pandas : Pandas.Library}.

(** X18.  In every row [parse_error_log] returns, the message has no
    blank left at either end and the error level no bracket: stripping
    them again changes nothing. *)
Theorem error_rows_are_stripped (lines : list string)
    (df : list ErrorLog.row) :
  ErrorLog.parse_lines lines = OK df ->
  Forall (fun r =>
            Py.strip (ErrorLog.row_message r) = ErrorLog.row_message r /\
            Py.strip_chars "[]" (ErrorLog.row_error_level r)
            = ErrorLog.row_error_level r) df.
Proof.
  intros Hp. destruct (ErrorFacts.error_parse_lines_OK _ _ Hp) as (Hall & _).
  clear Hp. induction Hall as [|line r ls df Hrow _ IH]; constructor;
    [|exact IH].
  apply ErrorFacts.row_of_line_inv in Hrow as [_ Hf].
  cbn in Hf. injection Hf as <-. cbn [ErrorLog.row_message ErrorLog.row_error_level].
  split; [apply strip_both_idem | apply strip_both_idem].
Qed.

End StrippedRows.

Lemma error_rows_are_stripped_witness :
  Forall (fun r =>
            Py.strip (ErrorLog.row_message r) = ErrorLog.row_message r /\
            Py.strip_chars "[]" (ErrorLog.row_error_level r)
            = ErrorLog.row_error_level r)
    [ErrorLog.mk_row (Some (Pandas.mk_datetime 2024 9 29 10 15 3 0)) "error"
       "5678:" "timed out" "1.2.3.4" "example.com" "GET / HTTP/1.1"
       "example.com"].
Proof.
  exact (error_rows_are_stripped (pandas := Pandas.plain)
           [ErrorLog.sample_line] _ ltac:(vm_compute; reflexivity)).
Defined.
